(** * hyperknow: the Director Agent tool-calling loop and its tools

    A shallow embedding of the Python sources

      - [tools/memory_tool.py]              (module [MemoryTool])
      - [tools/select_file_tool.py]         (module [SelectFileTool])
      - [tools/response_generator_tool.py]  (module [ResponseGeneratorTool])
      - [main.py], [app.py]                 (modules [Director], [Main], [App],
                                             [Declarations])

    Python [str] values are [string]s holding the UTF-8 encoding of the
    text; dictionaries that are only looked up are [gmap]s, dictionaries
    whose iteration order is observable are insertion-ordered association
    lists ([pydict]).  Console output ([print]) is not modelled. *)

From stdpp Require Import base strings list gmap option pretty.

(** ** Python text *)

Module Text.

(** A byte [10xxxxxx] continues a UTF-8 sequence. *)
Definition is_continuation (c : Ascii.ascii) : bool :=
  match c with
  | Ascii.Ascii _ _ _ _ _ _ b6 b7 => b7 && negb b6
  end.

(** [len(s)] counts code points: every byte that starts a sequence. *)
Fixpoint py_len (s : string) : nat :=
  match s with
  | EmptyString => 0
  | String c s' => (if is_continuation c then 0 else 1) + py_len s'
  end.

(** [sep.join(parts)] *)
Definition join (sep : string) (parts : list string) : string :=
  String.concat sep parts.

(** Truth value of a [str]: non-empty. *)
Definition truthy (s : string) : bool :=
  match s with
  | EmptyString => false
  | String _ _ => true
  end.

(** [s * n] *)
Fixpoint repeat_str (s : string) (n : nat) : string :=
  match n with
  | 0 => EmptyString
  | S k => s +:+ repeat_str s k
  end.

(** The part of [str] that depends on the Unicode database is kept
    behind an interface: [lower] is [str.lower], and [is_blank q] is the
    test [not q or not q.strip()]. *)
Class StrOps := {
  lower : string -> string;
  is_blank : string -> bool
}.

End Text.
Export Text.

(** ** Insertion-ordered dictionaries *)

Module PyDict.

Abbreviation pydict V := (list (string * V)).

(** [d[k] = v]: an existing key keeps its position, a new key goes last. *)
Fixpoint dict_set {V : Type} (k : string) (v : V) (d : pydict V) : pydict V :=
  match d with
  | [] => [(k, v)]
  | (k', v') :: d' =>
      if String.eqb k' k then (k', v) :: d' else (k', v') :: dict_set k v d'
  end.

Fixpoint dict_get {V : Type} (k : string) (d : pydict V) : option V :=
  match d with
  | [] => None
  | (k', v') :: d' => if String.eqb k' k then Some v' else dict_get k d'
  end.

End PyDict.
Export PyDict.

(** ** tools/memory_tool.py *)

Module MemoryTool.

(** One entry of ["knowledge_levels"]; both keys are read with [.get]. *)
Record level_entry := {
  entry_level : option string;
  entry_detailed_description : option string
}.

(** [self.memory_data]: the JSON document, [{}] when the file is missing
    or malformed; both top-level keys are read with [.get]. *)
Record memory_data := {
  user_id : option string;
  knowledge_levels : option (gmap string level_entry)
}.

Definition empty_memory : memory_data :=
  {| user_id := None; knowledge_levels := None |}.

(** A value of [result["subjects_info"]]. *)
Record subject_info := {
  level : string;
  detailed_description : string
}.

Record knowledge_result := {
  result_user_id : string;
  subjects_info : pydict subject_info
}.

(** f"未找到关于 {subject} 的知识水平信息" *)
Definition not_found_description (subject : string) : string :=
  "未找到关于 " +:+ subject +:+ " 的知识水平信息".

(** The record stored for one subject by the body of the [for] loop. *)
Definition subject_record (levels : gmap string level_entry) (subject : string)
  : subject_info :=
  match levels !! subject with
  | Some entry =>
      {| level := default "unknown" (entry_level entry);
         detailed_description :=
           default EmptyString (entry_detailed_description entry) |}
  | None =>
      {| level := "unknown";
         detailed_description := not_found_description subject |}
  end.

Definition get_knowledge_level (data : memory_data) (subjects : list string)
  : knowledge_result :=
  let levels := default ∅ (knowledge_levels data) in
  {| result_user_id := default "unknown" (user_id data);
     subjects_info :=
       foldl (fun info subject =>
                dict_set subject (subject_record levels subject) info)
             [] subjects |}.

End MemoryTool.

(** ** tools/select_file_tool.py *)

Module SelectFileTool.

(** One element of [metadata["files"]].  The keys ["title"],
    ["file_path"] and ["file_uri"] are indexed directly by the source and
    are part of the store format; the other two are read with [.get]. *)
Record file_info := {
  title : string;
  file_path : string;
  file_uri : string;
  content_summary : option string;
  topics : option (list string)
}.

(** [self.metadata.get("files", [])] *)
Abbreviation metadata := (list file_info).

(** A dictionary describing a selected file.  [select_files_by_titles]
    fills every key; the response generator reads each key with [.get],
    so a key may also be missing. *)
Record file_dict := {
  fd_title : option string;
  fd_file_path : option string;
  fd_file_uri : option string;
  fd_content_summary : option string;
  fd_topics : option (list string)
}.

Record selection := {
  selected_files : list file_dict;
  not_found : list string;
  total_selected : nat
}.

(** The dictionary appended to [selected_files] for a stored file. *)
Definition entry_of (info : file_info) : file_dict :=
  {| fd_title := Some (title info);
     fd_file_path := Some (file_path info);
     fd_file_uri := Some (file_uri info);
     fd_content_summary := Some (default EmptyString (content_summary info));
     fd_topics := Some (default [] (topics info)) |}.

Section WithStrOps.
Context `{StrOps}.

(** The dict comprehension keyed by lower-cased title: a later file
    with the same key replaces an earlier one. *)
Definition title_map (files : metadata) : gmap string file_info :=
  foldl (fun m info => <[lower (title info) := info]> m) ∅ files.

(** One pass of the loop over the requested titles, on the pair
    [(selected_files, not_found)]. *)
Definition select_step (tm : gmap string file_info)
    (acc : list file_dict * list string) (t : string)
  : list file_dict * list string :=
  match tm !! lower t with
  | Some info => (acc.1 ++ [entry_of info], acc.2)
  | None => (acc.1, acc.2 ++ [t])
  end.

Definition select_files_by_titles (files : metadata) (titles : list string)
  : selection :=
  let tm := title_map files in
  let acc := foldl (select_step tm) ([], []) titles in
  {| selected_files := acc.1;
     not_found := acc.2;
     total_selected := length acc.1 |}.

Definition get_all_file_titles (files : metadata) : list string :=
  title <$> files.

(** What [get_files_by_topic] returns. *)
Record topic_selection := {
  matched_files : list file_dict;
  total_matched : nat
}.

(** [any(topic.lower() in [t.lower() for t in file_topics] for topic in topics)] *)
Definition topic_matches (requested file_topics : list string) : bool :=
  existsb (fun topic => bool_decide (lower topic ∈ lower <$> file_topics))
    requested.

(** One pass of the loop over the stored files, on [matched_files]. *)
Definition match_step (requested : list string) (matched : list file_dict)
    (info : file_info) : list file_dict :=
  let file_topics := default [] (topics info) in
  if topic_matches requested file_topics then
    matched
      ++ [ {| fd_title := Some (title info);
              fd_file_path := Some (file_path info);
              fd_file_uri := Some (file_uri info);
              fd_content_summary :=
                Some (default EmptyString (content_summary info));
              fd_topics := Some file_topics |} ]
  else matched.

Definition get_files_by_topic (files : metadata) (requested : list string)
  : topic_selection :=
  let matched := foldl (match_step requested) [] files in
  {| matched_files := matched; total_matched := length matched |}.

End WithStrOps.

End SelectFileTool.

(** ** The google-genai SDK as seen by the program *)

Module GenAI.

(** A raised exception, identified with [str(e)]. *)
Definition exn := string.

Inductive result (A : Type) : Type :=
| Ok (a : A)
| Raise (e : exn).
Arguments Ok {A} a.
Arguments Raise {A} e.

(** [function_call.args], with the keys the three declared schemas name;
    each is read with [.get], so each may be missing.  The arguments are
    a mapping, as the SDK delivers them; a call whose [args] is [None]
    (on which [dict(function_call.args)] and [.get] raise) is not
    represented. *)
Record call_args := {
  subjects : option (list string);
  file_titles : option (list string);
  user_query : option string;
  use_knowledge_level : option bool;
  use_selected_files : option bool
}.

Definition no_args : call_args :=
  {| subjects := None; file_titles := None; user_query := None;
     use_knowledge_level := None; use_selected_files := None |}.

Record function_call := {
  name : string;
  args : call_args
}.

(** The dictionary returned by the terminal tool. *)
Record response_payload := {
  response : string;
  used_knowledge_level : bool;
  used_files : bool;
  response_length : nat
}.

(** What [execute_function] can return besides [None]. *)
Inductive tool_result : Type :=
| KnowledgeLevel (r : MemoryTool.knowledge_result)
| Selection (r : SelectFileTool.selection)
| DetailedResponse (r : response_payload).

Record function_response := {
  fr_name : string;
  fr_response : option tool_result
}.

Record file_data := {
  fd_uri : string;
  mime_type : string
}.

(** [types.Part]: a record of optional members. *)
Record part := {
  text : option string;
  part_function_call : option function_call;
  part_function_response : option function_response;
  part_file_data : option file_data
}.

(** [types.Part(text=t)] *)
Definition Part_text (t : string) : part :=
  {| text := Some t; part_function_call := None;
     part_function_response := None; part_file_data := None |}.

(** [types.Part.from_uri(file_uri=u, mime_type=m)] *)
Definition Part_from_uri (u m : string) : part :=
  {| text := None; part_function_call := None;
     part_function_response := None;
     part_file_data := Some {| fd_uri := u; mime_type := m |} |}.

(** [types.Part.from_function_response(name=n, response=r)] *)
Definition Part_from_function_response (n : string) (r : option tool_result)
  : part :=
  {| text := None; part_function_call := None;
     part_function_response := Some {| fr_name := n; fr_response := r |};
     part_file_data := None |}.

(** [types.Part] carrying a function call, as the engine produces it. *)
Definition Part_function_call (fc : function_call) : part :=
  {| text := None; part_function_call := Some fc;
     part_function_response := None; part_file_data := None |}.

Record content := {
  role : string;
  parts : option (list part)
}.

Record candidate := {
  cand_content : option content
}.

(** A decision-engine response; [response_text] is the SDK property
    [response.text]. *)
Record generate_response := {
  candidates : option (list candidate);
  response_text : option string
}.

(** What is sent through a chat session: the query, or the list of
    function-response parts. *)
Inductive message : Type :=
| MsgText (t : string)
| MsgParts (ps : list part).

(** A streamed answer: the chunks delivered (each with its optional
    [.text]) and, when iteration ends in an exception, that exception.  A
    call that raises before it delivers anything is a stream without
    chunks. *)
Record stream := {
  chunks : list (option string);
  failure : option exn
}.

Record uploaded_file := {
  uploaded_name : string;
  uri : string
}.

(** The services the program calls.  A chat session is a value that each
    message sent through it replaces. *)
Class Client := {
  chat_session : Type;
  chats_create : result chat_session;
  send_message : chat_session -> message -> chat_session * result generate_response;
  send_message_stream : chat_session -> string -> chat_session * stream;
  generate_content : list content -> result generate_response;
  generate_content_stream : list part -> stream;
  files_upload : string -> result uploaded_file;
  path_exists : string -> bool
}.

End GenAI.
Export GenAI.

(** ** tools/response_generator_tool.py *)

Module ResponseGeneratorTool.
Import MemoryTool SelectFileTool.

(** "\n" *)
Definition nl : string := String (Ascii.ascii_of_nat 10) EmptyString.

Section WithClient.
Context `{Client}.

(** The mutable members of the tool: [self.chat] and
    [self.conversation_history] (a list of role/content pairs). *)
Record tool_state := {
  chat : option chat_session;
  conversation_history : list (string * string)
}.

Definition initial_state : tool_state :=
  {| chat := None; conversation_history := [] |}.

Definition format_subject (context : string) (item : string * subject_info)
  : string :=
  let context :=
    context +:+ "- " +:+ item.1 +:+ ": " +:+ level item.2 +:+ " 水平" +:+ nl in
  if truthy (detailed_description item.2)
  then context +:+ "  详情: " +:+ detailed_description item.2 +:+ nl
  else context.

Definition _format_knowledge_level_context (info : knowledge_result) : string :=
  let context := nl +:+ "【用户知识水平背景】" +:+ nl in
  let context := foldl format_subject context (subjects_info info) in
  context +:+ nl +:+ "请根据用户的知识水平，用合适的方式解释概念。" +:+ nl.

Definition _format_single_file_context (info : file_dict) : string :=
  let title := default "未知文件" (fd_title info) in
  let summary := default EmptyString (fd_content_summary info) in
  let topics := default [] (fd_topics info) in
  let context := nl +:+ "【参考文档: " +:+ title +:+ "】" +:+ nl in
  let context :=
    match topics with
    | [] => context
    | _ :: _ => context +:+ "主题: " +:+ join ", " topics +:+ nl
    end in
  let context :=
    if truthy summary then context +:+ "内容摘要: " +:+ summary +:+ nl
    else context in
  context +:+ nl.

Definition _build_prompt (query : string) (context_parts : list string)
  : string :=
  let prompt := EmptyString in
  let prompt :=
    match context_parts with
    | [] => prompt
    | _ :: _ =>
        (prompt +:+ join EmptyString context_parts)
          +:+ (nl +:+ repeat_str "-" 60 +:+ nl +:+ nl)
    end in
  let prompt := prompt +:+ "用户问题: " +:+ query +:+ nl +:+ nl in
  prompt +:+ "请提供详细、准确、易懂的回答。".

(** One pass of the loop over [selected_files], on the pair
    [(content_parts, prompt)]: the file is either attached as an
    uploaded part or its summary is put in front of the prompt. *)
Definition attach_file (acc : list part * string) (info : file_dict)
  : list part * string :=
  let degraded :=
    (acc.1, _format_single_file_context info +:+ nl +:+ acc.2) in
  match fd_file_path info with
  | Some path =>
      if truthy path && path_exists path then
        match files_upload path with
        | Ok uploaded =>
            (acc.1 ++ [Part_from_uri (uri uploaded) "application/pdf"], acc.2)
        | Raise _ => degraded
        end
      else degraded
  | None => degraded
  end.

Definition attach_files (files : list file_dict) (prompt : string)
  : list part * string :=
  foldl attach_file ([], prompt) files.

(** [for chunk in response_stream: if chunk.text: full_response += chunk.text] *)
Definition accumulate (full_response : string) (cs : list (option string))
  : string :=
  foldl (fun acc c =>
           match c with
           | Some t => if truthy t then acc +:+ t else acc
           | None => acc
           end) full_response cs.

Definition consume (s : stream) : result string :=
  let full_response := accumulate EmptyString (chunks s) in
  match failure s with
  | None => Ok full_response
  | Some e => Raise e
  end.

(** [create_chat_session]: the history is reset once the session exists. *)
Definition create_chat_session (st : tool_state) : result (tool_state * chat_session) :=
  match chats_create with
  | Ok c => Ok ({| chat := Some c; conversation_history := [] |}, c)
  | Raise e => Raise e
  end.

(** The chat branch: reuse [self.chat] or create it, then stream the
    prompt through it. *)
Definition chat_stream (st : tool_state) (prompt : string)
  : tool_state * result stream :=
  let opened :=
    match chat st with
    | Some c => Ok (st, c)
    | None => create_chat_session st
    end in
  match opened with
  | Ok (st, c) =>
      let '(c', s) := send_message_stream c prompt in
      ({| chat := Some c'; conversation_history := conversation_history st |},
       Ok s)
  | Raise e => (st, Raise e)
  end.

(** The body of the [try]: the final prompt, the state, and the stream
    that is going to be consumed (or the exception raised before any
    stream exists). *)
Definition open_stream (st : tool_state) (prompt : string)
    (selected : option (list file_dict))
  : string * tool_state * result stream :=
  match selected with
  | Some ((_ :: _) as files) =>
      let '(content_parts, prompt) := attach_files files prompt in
      let content_parts := content_parts ++ [Part_text prompt] in
      if 1 <? length content_parts
      then (prompt, st, Ok (generate_content_stream content_parts))
      else let '(st, s) := chat_stream st prompt in (prompt, st, s)
  | _ => let '(st, s) := chat_stream st prompt in (prompt, st, s)
  end.

(** f"抱歉，生成响应时出现错误: {e}" *)
Definition error_notice (e : exn) : string :=
  "抱歉，生成响应时出现错误: " +:+ e.

(** The prompt before any file is looked at: the knowledge-level
    context, when there is one, and the query. *)
Definition initial_prompt (query : string)
    (knowledge_level_info : option knowledge_result) : string :=
  let context_parts :=
    match knowledge_level_info with
    | Some info => [_format_knowledge_level_context info]
    | None => []
    end in
  _build_prompt query context_parts.

Definition generate_response_stream (st : tool_state) (query : string)
    (knowledge_level_info : option knowledge_result)
    (selected : option (list file_dict))
  : string * tool_state :=
  let prompt := initial_prompt query knowledge_level_info in
  let '(prompt, st, opened) := open_stream st prompt selected in
  let full_response :=
    match opened with
    | Ok s =>
        match consume s with
        | Ok full_response => full_response
        | Raise e => error_notice e
        end
    | Raise e => error_notice e
    end in
  (full_response,
   {| chat := chat st;
      conversation_history :=
        conversation_history st
          ++ [("user", prompt); ("assistant", full_response)] |}).

(** [continue_conversation]: raises [ValueError] without a session;
    otherwise streams the follow-up through it.  The follow-up is not
    added to [self.conversation_history]. *)
Definition continue_conversation (st : tool_state) (follow_up_query : string)
  : result string * tool_state :=
  match chat st with
  | None => (Raise "没有活动的聊天会话，请先调用 generate_response_stream", st)
  | Some c =>
      let '(c', s) := send_message_stream c follow_up_query in
      let full_response :=
        match consume s with
        | Ok full_response => full_response
        | Raise e => error_notice e
        end in
      (Ok full_response,
       {| chat := Some c'; conversation_history := conversation_history st |})
  end.

End WithClient.

End ResponseGeneratorTool.

(** ** The Director Agent: [execute_function] (main.py and app.py) *)

Module Director.
Import MemoryTool SelectFileTool ResponseGeneratorTool.

Definition max_iterations : nat := 10.

Section WithServices.
Context `{StrOps} `{Client}.

(** [self.memory_tool.memory_data] and the files of
    [self.select_file_tool.metadata], both read once at start-up. *)
Variable memory : memory_data.
Variable files : metadata.

(** [execute_function] of [DirectorAgent] (main.py) and of
    [GradioDirectorAgent] (app.py); the two copies differ in console
    output only.  [gen] is the state of [self.response_generator];
    the result [None] is Python's [None]. *)
Definition execute_function (gen : tool_state) (fc : function_call)
    (query : string)
    (knowledge_level_result : option knowledge_result)
    (selected_files_result : option selection)
  : option tool_result * tool_state :=
  if String.eqb (name fc) "get_knowledge_level" then
    let subjects := default [] (subjects (args fc)) in
    (Some (KnowledgeLevel (get_knowledge_level memory subjects)), gen)
  else if String.eqb (name fc) "select_relevant_files" then
    let file_titles := default [] (file_titles (args fc)) in
    (Some (Selection (select_files_by_titles files file_titles)), gen)
  else if String.eqb (name fc) "generate_detailed_response" then
    let query := default query (user_query (args fc)) in
    let use_knowledge := default false (use_knowledge_level (args fc)) in
    let use_files := default false (use_selected_files (args fc)) in
    let knowledge_info :=
      if use_knowledge then knowledge_level_result else None in
    let files_info :=
      if use_files then
        match selected_files_result with
        | Some r => Some (selected_files r)
        | None => None
        end
      else None in
    let '(detailed_response, gen) :=
      generate_response_stream gen query knowledge_info files_info in
    (Some (DetailedResponse
             {| response := detailed_response;
                used_knowledge_level := use_knowledge;
                used_files := use_files;
                response_length := py_len detailed_response |}), gen)
  else (None, gen).

(** The function calls of a response, in arrival order.  Reading
    [.parts] of a missing content raises [AttributeError]. *)
Definition extract_function_calls (r : generate_response)
  : result (list function_call) :=
  match candidates r with
  | Some (c :: _) =>
      match cand_content c with
      | Some ct =>
          match parts ct with
          | Some ps => Ok (omap part_function_call ps)
          | None => Ok []
          end
      | None => Raise "'NoneType' object has no attribute 'parts'"
      end
  | _ => Ok []
  end.

(** [response.candidates[0].content], where it exists. *)
Definition first_content (r : generate_response) : list content :=
  match candidates r with
  | Some (c :: _) => option_list (cand_content c)
  | _ => []
  end.

(** The local variables of a query that the tool calls read and
    write, with the state of the response generator.  [executed] is a
    ghost log of the calls passed to [execute_function], in order,
    each with what it returned. *)
Record vars := {
  knowledge_level_result : option knowledge_result;
  selected_files_result : option selection;
  gen : tool_state;
  executed : list (function_call * option tool_result)
}.

Definition initial_vars (g : tool_state) : vars :=
  {| knowledge_level_result := None; selected_files_result := None;
     gen := g; executed := [] |}.

(** [result = self.execute_function(function_call, user_query,
    knowledge_level_result, selected_files_result)] *)
Definition call (v : vars) (fc : function_call) (query : string)
  : option tool_result * vars :=
  let '(result, g) :=
    execute_function (gen v) fc query
      (knowledge_level_result v) (selected_files_result v) in
  (result,
   {| knowledge_level_result := knowledge_level_result v;
      selected_files_result := selected_files_result v;
      gen := g;
      executed := executed v ++ [(fc, result)] |}).

Definition set_knowledge (v : vars) (result : option tool_result) : vars :=
  {| knowledge_level_result :=
       match result with Some (KnowledgeLevel r) => Some r | _ => None end;
     selected_files_result := selected_files_result v;
     gen := gen v; executed := executed v |}.

Definition set_selection (v : vars) (result : option tool_result) : vars :=
  {| knowledge_level_result := knowledge_level_result v;
     selected_files_result :=
       match result with Some (Selection r) => Some r | _ => None end;
     gen := gen v; executed := executed v |}.

(** [result["response"]]; only applied to what [execute_function]
    returned for the terminal tool, which is such a dictionary. *)
Definition response_of (result : option tool_result) : string :=
  match result with
  | Some (DetailedResponse p) => response p
  | _ => EmptyString
  end.


(** The state of one query in the loops that also accept a chat
    session: the session when one was passed, the explicit history
    otherwise, the counter [iteration], and a ghost count of the calls
    made to the decision engine. *)
Record session := {
  s_chat : option chat_session;
  s_history : list content;
  s_vars : vars;
  iteration : nat;
  decisions : nat
}.

Definition with_vars (s : session) (v : vars) : session :=
  {| s_chat := s_chat s; s_history := s_history s; s_vars := v;
     iteration := iteration s; decisions := decisions s |}.

(** [iteration += 1] *)
Definition tick (s : session) : session :=
  {| s_chat := s_chat s; s_history := s_history s; s_vars := s_vars s;
     iteration := S (iteration s); decisions := decisions s |}.

Definition user_content (ps : list part) : content :=
  {| role := "user"; parts := Some ps |}.

(** The first request: through the chat session if there is one, else
    with a fresh one-message history. *)
Definition first_decision (g : tool_state) (chat : option chat_session)
    (query : string) : session * result generate_response :=
  match chat with
  | Some c =>
      let '(c', r) := send_message c (MsgText query) in
      ({| s_chat := Some c'; s_history := []; s_vars := initial_vars g;
          iteration := 0; decisions := 1 |}, r)
  | None =>
      let history := [user_content [Part_text query]] in
      ({| s_chat := None; s_history := history; s_vars := initial_vars g;
          iteration := 0; decisions := 1 |}, generate_content history)
  end.

(** Sending the function responses of a batch and asking again. *)
Definition next_decision (s : session) (resp : generate_response)
    (function_responses : list part) : session * result generate_response :=
  match s_chat s with
  | Some c =>
      let '(c', r) := send_message c (MsgParts function_responses) in
      ({| s_chat := Some c'; s_history := s_history s; s_vars := s_vars s;
          iteration := iteration s; decisions := S (decisions s) |}, r)
  | None =>
      let history :=
        (s_history s ++ first_content resp)
          ++ [user_content function_responses] in
      ({| s_chat := None; s_history := history; s_vars := s_vars s;
          iteration := iteration s; decisions := S (decisions s) |},
       generate_content history)
  end.

(** How the [for] loop over a batch ends in [process_query] and
    [process_query_with_chat]: at the terminal call, with its result,
    or after the last call, with the function responses collected. *)
Inductive batch_end : Type :=
| AtTerminal (result : option tool_result)
| Collected (function_responses : list part).

Fixpoint run_batch (calls : list function_call) (query : string)
    (v : vars) (function_responses : list part) : vars * batch_end :=
  match calls with
  | [] => (v, Collected function_responses)
  | fc :: rest =>
      let '(result, v) := call v fc query in
      let respond v :=
        run_batch rest query v
          (function_responses
             ++ [Part_from_function_response (name fc) result]) in
      if String.eqb (name fc) "get_knowledge_level" then
        respond (set_knowledge v result)
      else if String.eqb (name fc) "select_relevant_files" then
        respond (set_selection v result)
      else if String.eqb (name fc) "generate_detailed_response" then
        (v, AtTerminal result)
      else respond v
  end.

End WithServices.

End Director.

(** ** main.py: [DirectorAgent.process_query] *)

Module Main.
Import MemoryTool SelectFileTool ResponseGeneratorTool Director.

(** The function returns [None] on every path; what tells the paths
    apart is what was printed last: the engine's text, the completion
    banner after the terminal tool, or the iteration-limit warning.  An
    exception is not caught here. *)
Inductive exit : Type :=
| Replied (text : option string)
| Completed
| LimitWarning
| Uncaught (e : exn).

(** "⚠️ 警告: 达到最大迭代次数限制" *)
Definition limit_warning : string := "⚠️ 警告: 达到最大迭代次数限制".

Section WithServices.
Context `{StrOps} `{Client}.
Variable memory : memory_data.
Variable files : metadata.

(** The [while iteration < max_iterations] loop; [remaining] is
    [max_iterations - iteration]. *)
Fixpoint loop (remaining : nat) (query : string) (s : session)
    (resp : generate_response) : exit * session :=
  match remaining with
  | 0 => (LimitWarning, s)
  | S k =>
      let s := tick s in
      match extract_function_calls resp with
      | Raise e => (Uncaught e, s)
      | Ok [] => (Replied (response_text resp), s)
      | Ok calls =>
          match run_batch memory files calls query (s_vars s) [] with
          | (v, AtTerminal _) => (Completed, with_vars s v)
          | (v, Collected function_responses) =>
              match next_decision (with_vars s v) resp function_responses with
              | (s, Ok resp) => loop k query s resp
              | (s, Raise e) => (Uncaught e, s)
              end
          end
      end
  end.

Definition process_query (g : tool_state) (query : string)
    (chat : option chat_session) : exit * session :=
  match first_decision g chat query with
  | (s, Ok resp) => loop max_iterations query s resp
  | (s, Raise e) => (Uncaught e, s)
  end.

End WithServices.

End Main.

(** ** app.py: [GradioDirectorAgent] *)

Module App.
Import MemoryTool SelectFileTool ResponseGeneratorTool Director.

(** "⚠️ 请输入有效的问题" *)
Definition invalid_question : string := "⚠️ 请输入有效的问题".

(** "抱歉，我无法生成回复。" *)
Definition no_reply : string := "抱歉，我无法生成回复。".

(** "⚠️ 达到最大迭代次数限制" *)
Definition limit_warning : string := "⚠️ 达到最大迭代次数限制".

(** f"❌ 处理过程中出现错误: {str(e)}" *)
Definition processing_error (e : exn) : string :=
  "❌ 处理过程中出现错误: " +:+ e.

(** One string appended to [function_call_log]; the markdown text of
    each entry is not modelled. *)
Inductive log_entry : Type :=
| LogQuestion (query : string)
| LogPathHeader
| LogStep (step_number : nat) (tool : string)
| LogArgs (a : call_args)
| LogResultHeader
| LogSubject (subject : string) (info : subject_info)
| LogSelectedCount (n : nat)
| LogSelectedTitle (title : option string)
| LogGenerated (response_length : nat)
| LogUsedKnowledge (used : bool)
| LogUsedFiles (used : bool).

(** The first component of what [process_query_for_gradio] returns: the
    joined log, or the error message. *)
Inductive path_text : Type :=
| PathLog (log : list log_entry)
| PathError (msg : string).

Section WithServices.
Context `{StrOps} `{Client}.
Variable memory : memory_data.
Variable files : metadata.

(** *** [process_query_with_chat] *)

(** [response.text if response.text else "抱歉，我无法生成回复。"] *)
Definition reply_text (resp : generate_response) : string :=
  match response_text resp with
  | Some t => if truthy t then t else no_reply
  | None => no_reply
  end.

(** The [while] loop, inside the [try]; [remaining] is
    [max_iterations - iteration]. *)
Fixpoint chat_loop (remaining : nat) (query : string) (s : session)
    (resp : generate_response) : string * session :=
  match remaining with
  | 0 => (limit_warning, s)
  | S k =>
      let s := tick s in
      match extract_function_calls resp with
      | Raise e => (processing_error e, s)
      | Ok [] => (reply_text resp, s)
      | Ok calls =>
          match run_batch memory files calls query (s_vars s) [] with
          | (v, AtTerminal result) => (response_of result, with_vars s v)
          | (v, Collected function_responses) =>
              match next_decision (with_vars s v) resp function_responses with
              | (s, Ok resp) => chat_loop k query s resp
              | (s, Raise e) => (processing_error e, s)
              end
          end
      end
  end.

Definition process_query_with_chat (g : tool_state) (query : string)
    (chat : option chat_session) : string * session :=
  if is_blank query then
    (invalid_question,
     {| s_chat := chat; s_history := []; s_vars := initial_vars g;
        iteration := 0; decisions := 0 |})
  else
    match first_decision g chat query with
    | (s, Ok resp) => chat_loop max_iterations query s resp
    | (s, Raise e) => (processing_error e, s)
    end.

(** *** [process_query_for_gradio] *)

Record gradio_state := {
  g_history : list content;
  g_vars : vars;
  g_iteration : nat;
  g_decisions : nat;
  final_response : string;
  step_number : nat;
  function_call_log : list log_entry
}.

Definition gradio_initial (g : tool_state) (query : string) : gradio_state :=
  {| g_history := [user_content [Part_text query]];
     g_vars := initial_vars g;
     g_iteration := 0;
     g_decisions := 0;
     final_response := EmptyString;
     step_number := 1;
     function_call_log := [LogQuestion query; LogPathHeader] |}.

(** What is recorded after one call: the variable that keeps the
    result and the lines added to the log. *)
Definition record_result (fc : function_call) (result : option tool_result)
    (st : gradio_state) (v : vars) : vars * string * list log_entry :=
  if String.eqb (name fc) "get_knowledge_level" then
    let v := set_knowledge v result in
    (v, final_response st,
     LogResultHeader
       :: match knowledge_level_result v with
          | Some r => (fun item => LogSubject item.1 item.2) <$> subjects_info r
          | None => []
          end)
  else if String.eqb (name fc) "select_relevant_files" then
    let v := set_selection v result in
    (v, final_response st,
     match selected_files_result v with
     | Some r =>
         [LogResultHeader; LogSelectedCount (length (selected_files r))]
           ++ ((fun d => LogSelectedTitle (fd_title d)) <$> selected_files r)
     | None => [LogResultHeader]
     end)
  else if String.eqb (name fc) "generate_detailed_response" then
    (v, response_of result,
     match result with
     | Some (DetailedResponse p) =>
         [LogResultHeader; LogGenerated (response_length p);
          LogUsedKnowledge (used_knowledge_level p);
          LogUsedFiles (used_files p)]
     | _ => [LogResultHeader]
     end)
  else (v, final_response st, []).

(** The [for] loop over a batch: every call of the batch is logged,
    executed and answered. *)
Fixpoint gradio_batch (calls : list function_call) (query : string)
    (st : gradio_state) (function_responses : list part)
  : gradio_state * list part :=
  match calls with
  | [] => (st, function_responses)
  | fc :: rest =>
      let log :=
        function_call_log st
          ++ [LogStep (step_number st) (name fc); LogArgs (args fc)] in
      let '(result, v) := call memory files (g_vars st) fc query in
      let '(v, final, lines) := record_result fc result st v in
      gradio_batch rest query
        {| g_history := g_history st;
           g_vars := v;
           g_iteration := g_iteration st;
           g_decisions := g_decisions st;
           final_response := final;
           step_number := S (step_number st);
           function_call_log := log ++ lines |}
        (function_responses
           ++ [Part_from_function_response (name fc) result])
  end.

(** [any(fc.name == "generate_detailed_response" for fc in calls)] *)
Definition any_terminal (calls : list function_call) : bool :=
  existsb (fun fc => String.eqb (name fc) "generate_detailed_response") calls.

Definition gradio_finish (st : gradio_state)
  : path_text * string * gradio_state :=
  (PathLog (function_call_log st), final_response st, st).

Definition gradio_error (e : exn) (st : gradio_state)
  : path_text * string * gradio_state :=
  (PathError (processing_error e), EmptyString, st).

Definition gradio_asked (st : gradio_state) (history : list content)
    (final : string) : gradio_state :=
  {| g_history := history;
     g_vars := g_vars st;
     g_iteration := g_iteration st;
     g_decisions := g_decisions st;
     final_response := final;
     step_number := step_number st;
     function_call_log := function_call_log st |}.

(** [iteration += 1], then the call to the model. *)
Definition gradio_tick (st : gradio_state) : gradio_state :=
  {| g_history := g_history st;
     g_vars := g_vars st;
     g_iteration := S (g_iteration st);
     g_decisions := S (g_decisions st);
     final_response := final_response st;
     step_number := step_number st;
     function_call_log := function_call_log st |}.

Fixpoint gradio_loop (remaining : nat) (query : string) (st : gradio_state)
  : path_text * string * gradio_state :=
  match remaining with
  | 0 => gradio_finish st
  | S k =>
      let st := gradio_tick st in
      match generate_content (g_history st) with
      | Raise e => gradio_error e st
      | Ok resp =>
          match extract_function_calls resp with
          | Raise e => gradio_error e st
          | Ok [] =>
              gradio_finish
                (match response_text resp with
                 | Some t =>
                     if truthy t then gradio_asked st (g_history st) t
                     else st
                 | None => st
                 end)
          | Ok calls =>
              let st :=
                gradio_asked st (g_history st ++ first_content resp)
                  (final_response st) in
              let '(st, function_responses) :=
                gradio_batch calls query st [] in
              if any_terminal calls then gradio_finish st
              else
                gradio_loop k query
                  (gradio_asked st
                     (g_history st ++ [user_content function_responses])
                     (final_response st))
          end
      end
  end.

Definition process_query_for_gradio (g : tool_state) (query : string)
  : path_text * string * gradio_state :=
  if is_blank query then
    (PathError invalid_question, EmptyString, gradio_initial g query)
  else gradio_loop max_iterations query (gradio_initial g query).

End WithServices.

(** *** The handlers of [create_gradio_interface] *)

(** [agent.client.chats.create(model=..., config=agent.config)]: a new
    chat session with the decision engine. *)
Class DecisionChats `{Client} := {
  create_decision_chat : result chat_session
}.

Section Handlers.
Context `{StrOps} `{DecisionChats}.
Variable memory : memory_data.
Variable files : metadata.

(** The value of the chatbot component: [None] or a list of
    (message, response) pairs. *)
Definition chat_history : Type := option (list (string * string)).

Definition get_or_create_chat (chat : option chat_session)
  : result chat_session :=
  match chat with
  | Some c => Ok c
  | None => create_decision_chat
  end.

(** [respond(message, history, chat)], with the state of the agent's
    response generator; an exception of the session creation is not
    caught. *)
Definition respond (g : tool_state) (message : string)
    (history : chat_history) (chat : option chat_session)
  : result (chat_history * string * option chat_session) * tool_state :=
  if is_blank message then (Ok (history, EmptyString, chat), g)
  else
    match get_or_create_chat chat with
    | Raise e => (Raise e, g)
    | Ok c =>
        let '(response, s) :=
          process_query_with_chat memory files g message (Some c) in
        let history := default [] history in
        (Ok (Some (history ++ [(message, response)]), EmptyString, s_chat s),
         gen (s_vars s))
    end.

Definition clear_history : chat_history * option chat_session :=
  (Some [], None).

(** [retry_last(history, chat)] *)
Definition retry_last (g : tool_state) (history : chat_history)
    (chat : option chat_session)
  : result (chat_history * string * option chat_session) * tool_state :=
  match history with
  | None | Some [] => (Ok (history, EmptyString, chat), g)
  | Some ((_ :: _) as pairs) =>
      match list.last pairs with
      | Some (last_message, _) =>
          respond g last_message (Some (removelast pairs)) chat
      | None => (Ok (history, EmptyString, chat), g)
      end
  end.

End Handlers.

End App.

(** ** main.py, app.py: the declaration of [select_relevant_files] *)

Module Declarations.
Import SelectFileTool ResponseGeneratorTool.

(** The double quote. *)
Definition dq : string := String (Ascii.ascii_of_nat 34) EmptyString.

(** A function declaration with one array parameter. *)
Record function_declaration := {
  decl_name : string;
  decl_description : string;
  decl_parameter : string;
  decl_enum : list string;
  decl_parameter_description : string;
  decl_required : list string
}.

(** f"- **{title}**\n  内容: {summary}" *)
Definition file_description (info : file_info) : string :=
  let summary := default "无摘要" (content_summary info) in
  "- **" +:+ title info +:+ "**" +:+ nl +:+ "  内容: " +:+ summary.

(** [create_select_files_function], on the files of the loaded metadata
    (no file when the document is missing or malformed).  The copy in
    main.py also builds a topic index that it does not use. *)
Definition create_select_files_function (files : metadata)
  : function_declaration :=
  let file_titles := title <$> files in
  let file_descriptions := file_description <$> files in
  let description :=
    join nl
    ["根据用户的问题和需求，从可用的文档库中**精确选择**最相关的文件。";
     EmptyString;
     "⚠️ **重要提示**：";
     "- **仔细阅读**每个文件的内容摘要";
     "- **只选择**与用户问题**直接相关**的文件";
     "- **不要**选择所有文件，要根据问题内容**精确匹配**";
     "- 如果问题只涉及某个特定主题（如太阳、望远镜、开普勒定律等），只选择包含该主题的文件";
     EmptyString;
     "**选择策略**：";
     "1. 仔细分析用户问题中的**关键词**（如：太阳、望远镜、轨道、光谱等）";
     "2. 查看每个文件的**内容摘要**，判断是否包含相关主题";
     "3. **只选择**内容摘要中明确提到相关主题的文件";
     "4. 如果多个文件都相关，可以选择多个，但要确保每个都是必要的";
     EmptyString;
     "**可用的文件及其详细内容（共 " +:+ pretty (length files) +:+ " 个）**：";
     EmptyString;
     join nl file_descriptions;
     EmptyString;
     "**示例**：";
     "- 问题：" +:+ dq +:+ "太阳的内部结构" +:+ dq +:+ " → 只选择 [" +:+ dq +:+ "301F09.Ch16.Sun.Slides.pdf" +:+ dq +:+ "]（因为只有它介绍太阳）";
     "- 问题：" +:+ dq +:+ "望远镜的工作原理" +:+ dq +:+ " → 只选择 [" +:+ dq +:+ "301F09.TelescopesCh5.9.16.09.pdf" +:+ dq +:+ "]（因为只有它介绍望远镜）";
     "- 问题：" +:+ dq +:+ "开普勒定律" +:+ dq +:+ " → 选择 [" +:+ dq +:+ "301F09.IntroOrbitsLight.I.pdf" +:+ dq +:+ ", " +:+ dq +:+ "301F09Scalo.IntOrbLight.II.pdf" +:+ dq +:+ "]（两个都涉及轨道和开普勒定律）";
     "- 问题：" +:+ dq +:+ "光谱分析" +:+ dq +:+ " → 只选择 [" +:+ dq +:+ "301F09.LecturesCh3.5_4.pdf" +:+ dq +:+ "]（因为它专门讲光谱）";
     EmptyString;
     "请根据用户的问题内容，**精确选择**最相关的文件，避免选择不必要的文件。";
     EmptyString] in
  {| decl_name := "select_relevant_files";
     decl_description := description;
     decl_parameter := "file_titles";
     decl_enum := file_titles;
     decl_parameter_description :=
       "需要查询的文件标题列表，从可用文件中选择最相关的一个或多个";
     decl_required := ["file_titles"] |}.

End Declarations.

(** ** Concrete services, used to run the definitions *)

Module Stub.
Import MemoryTool SelectFileTool ResponseGeneratorTool Director.

Definition ascii_lower (c : Ascii.ascii) : Ascii.ascii :=
  let n := Ascii.nat_of_ascii c in
  if (65 <=? n) && (n <=? 90) then Ascii.ascii_of_nat (n + 32) else c.

Fixpoint lower_ascii (s : string) : string :=
  match s with
  | EmptyString => EmptyString
  | String c s' => String (ascii_lower c) (lower_ascii s')
  end.

Definition ascii_space (c : Ascii.ascii) : bool :=
  let n := Ascii.nat_of_ascii c in
  (n =? 32) || ((9 <=? n) && (n <=? 13)) || ((28 <=? n) && (n <=? 31)).

Fixpoint blank_ascii (s : string) : bool :=
  match s with
  | EmptyString => true
  | String c s' => ascii_space c && blank_ascii s'
  end.

(** [str.lower] and the blank test on ASCII text. *)
Definition ascii_ops : StrOps :=
  {| lower := lower_ascii; is_blank := blank_ascii |}.

(** A response that carries the given function calls and no text. *)
Definition calls_response (calls : list function_call) : generate_response :=
  {| candidates :=
       Some [ {| cand_content :=
                   Some {| role := "model";
                           parts := Some (Part_function_call <$> calls) |} |} ];
     response_text := None |}.

(** A response that carries only text. *)
Definition text_response (t : option string) : generate_response :=
  {| candidates :=
       Some [ {| cand_content :=
                   Some {| role := "model";
                           parts := Some (option_list (Part_text <$> t)) |} |} ];
     response_text := t |}.

(** A client whose decision engine answers its [n]-th request with
    [decide n], whose generation calls all deliver [answer], and whose
    file system and upload service are the two given functions.  A chat
    session is the number of messages sent through it; an explicit
    history holds one message when first sent and two more per round. *)
Definition scripted (decide : nat -> result generate_response)
    (answer : stream) (upload : string -> result uploaded_file)
    (present : string -> bool) : Client :=
  {| chat_session := nat;
     chats_create := Ok 0;
     send_message c _ := (S c, decide c);
     send_message_stream c _ := (S c, answer);
     generate_content history := decide (length history / 2);
     generate_content_stream _ := answer;
     files_upload := upload;
     path_exists := present |}.

Definition knowledge_call (subjects : list string) : function_call :=
  {| name := "get_knowledge_level";
     args := {| subjects := Some subjects; file_titles := None;
                user_query := None; use_knowledge_level := None;
                use_selected_files := None |} |}.

Definition select_call (titles : list string) : function_call :=
  {| name := "select_relevant_files";
     args := {| subjects := None; file_titles := Some titles;
                user_query := None; use_knowledge_level := None;
                use_selected_files := None |} |}.

Definition terminal_call (query : option string) (k f : option bool)
  : function_call :=
  {| name := "generate_detailed_response";
     args := {| subjects := None; file_titles := None;
                user_query := query; use_knowledge_level := k;
                use_selected_files := f |} |}.

Definition no_upload (path : string) : result uploaded_file :=
  Raise "upload failed".

Definition whole_answer (t : string) : stream :=
  {| chunks := [Some t]; failure := None |}.

(** A store with one astronomy entry. *)
Definition sample_memory : memory_data :=
  {| user_id := Some "student_001";
     knowledge_levels :=
       Some {[ "astronomy" :=
                 {| entry_level := Some "beginner";
                    entry_detailed_description := Some "basic concepts" |} ]} |}.

Definition known_pdf : file_info :=
  {| title := "known.pdf"; file_path := "files/known.pdf";
     file_uri := "https://example.invalid/known";
     content_summary := Some "a known document";
     topics := Some ["astronomy"] |}.

(** Two stored files whose titles differ in case only. *)
Definition upper_title_pdf : file_info :=
  {| title := "A.pdf"; file_path := "files/first.pdf";
     file_uri := "https://example.invalid/first";
     content_summary := Some "the first document";
     topics := Some ["astronomy"] |}.

Definition lower_title_pdf : file_info :=
  {| title := "a.pdf"; file_path := "files/second.pdf";
     file_uri := "https://example.invalid/second";
     content_summary := Some "the second document";
     topics := Some ["physics"] |}.

(** A stream that delivers two chunks and then raises. *)
Definition broken_stream : stream :=
  {| chunks := [Some "Hello, "; Some "world"];
     failure := Some "connection reset" |}.

Definition no_decision (n : nat) : result generate_response :=
  Raise "no decision engine".

(** A client whose generation calls all end in [broken_stream]. *)
Definition broken_client : Client :=
  scripted no_decision broken_stream no_upload (fun _ => false).

(** Three selected files; the path of the second one is not on disk. *)
Definition selected (n : string) : file_dict :=
  {| fd_title := Some (n +:+ ".pdf");
     fd_file_path := Some ("files/" +:+ n +:+ ".pdf");
     fd_file_uri := Some ("https://example.invalid/" +:+ n);
     fd_content_summary := Some ("summary of " +:+ n);
     fd_topics := Some ["astronomy"] |}.

Definition upload_ok (path : string) : result uploaded_file :=
  Ok {| uploaded_name := "files/x"; uri := "uri:" +:+ path |}.

Definition two_of_three_client : Client :=
  scripted no_decision (whole_answer "answer") upload_ok
    (fun path => negb (String.eqb path "files/two.pdf")).

(** A decision engine that asks for a knowledge-level lookup whatever it
    is sent. *)
Definition looping_client : Client :=
  scripted (fun _ => Ok (calls_response [knowledge_call ["astronomy"]]))
    (whole_answer "answer") no_upload (fun _ => false).

(** A decision engine whose first response is the batch: a lookup, the
    terminal call, a document selection. *)
Definition mixed_batch : list function_call :=
  [knowledge_call ["astronomy"];
   terminal_call (Some "the sun") None None;
   select_call ["known.pdf"]].

Definition mixed_batch_client : Client :=
  scripted (fun n => match n with
                     | 0 => Ok (calls_response mixed_batch)
                     | S _ => Ok (text_response (Some "done"))
                     end)
    (whole_answer "answer") no_upload (fun _ => false).


Definition unknown_call : function_call :=
  {| name := "search_the_web"; args := no_args |}.

(** A function response without a payload. *)
Definition answers_none (p : part) : bool :=
  match part_function_response p with
  | Some fr => match fr_response fr with None => true | Some _ => false end
  | None => false
  end.

(** The batch of an engine that invents a tool: the unknown call, then a
    lookup. *)
Definition invented_batch : list function_call :=
  [unknown_call; knowledge_call ["astronomy"]].

(** What that engine decides on the parts it is sent: it asks for
    [invented_batch] until a function response without a payload
    reaches it, and then says that there is no such tool. *)
Definition hallucinating_decision (ps : list part) : result generate_response :=
  if existsb answers_none ps then Ok (text_response (Some "no such tool"))
  else Ok (calls_response invented_batch).

Definition hallucinating_client : Client :=
  {| chat_session := nat;
     chats_create := Ok 0;
     send_message c m :=
       (S c, match m with
             | MsgText _ => hallucinating_decision []
             | MsgParts ps => hallucinating_decision ps
             end);
     send_message_stream c _ := (S c, whole_answer "answer");
     generate_content history :=
       hallucinating_decision
         (match list.last history with
          | Some ct => default [] (parts ct)
          | None => []
          end);
     generate_content_stream _ := whole_answer "answer";
     files_upload := no_upload;
     path_exists _ := false |}.

(** A decision engine that answers with the text ["hello"]. *)
Definition greeting_client : Client :=
  scripted (fun _ => Ok (text_response (Some "hello")))
    (whole_answer "answer") no_upload (fun _ => false).

(** A stream that ends normally; two of its chunks carry no text. *)
Definition chunked_stream : stream :=
  {| chunks := [Some "Hel"; None; Some EmptyString; Some "lo"];
     failure := None |}.

Definition chunked_client : Client :=
  scripted no_decision chunked_stream upload_ok (fun _ => true).

(** A decision engine that cannot be reached. *)
Definition unreachable_client : Client :=
  scripted (fun _ => Raise "connection refused")
    (whole_answer "answer") no_upload (fun _ => false).

(** A batch of two lookups followed by the terminal call asking for the
    knowledge level. *)
Definition lookup_twice_then_answer : list function_call :=
  [knowledge_call ["astronomy"];
   knowledge_call ["algebra"];
   terminal_call (Some "the sun") (Some true) None].

(** Decision chats of the scripted clients start at message 0. *)
Definition greeting_chats : @App.DecisionChats greeting_client :=
  @App.Build_DecisionChats greeting_client (@Ok nat 0).

(** A client for which no decision chat can be created. *)
Definition no_chats : @App.DecisionChats greeting_client :=
  @App.Build_DecisionChats greeting_client (@Raise nat "no session").

End Stub.

(** ** Notions used to state the properties *)

Module Notions.
Import MemoryTool SelectFileTool ResponseGeneratorTool Director.

(** [needle] occurs in [text]. *)
Definition occurs_in (needle text : string) : Prop :=
  exists before after, text = before +:+ needle +:+ after.

(** A name that is none of the three registered tools. *)
Definition unregistered (n : string) : Prop :=
  n <> "get_knowledge_level" /\ n <> "select_relevant_files"
  /\ n <> "generate_detailed_response".

(** A call to a tool other than the terminal one. *)
Definition nonterminal (fc : function_call) : Prop :=
  name fc <> "generate_detailed_response".

(** A response that asks for at least one tool call, none of them the
    terminal one. *)
Definition tool_batch (r : generate_response) : Prop :=
  exists calls,
    extract_function_calls r = Ok calls /\ calls <> []
    /\ Forall nonterminal calls.

Section WithStrOps.
Context `{StrOps}.

(** A requested title matches the store when some stored title has the
    same lower-cased form. *)
Definition stored (files : metadata) (t : string) : Prop :=
  lower t ∈ (fun info => lower (title info)) <$> files.

#[global] Instance stored_dec files t : Decision (stored files t).
Proof. unfold stored. apply _. Defined.

(** The files whose lower-cased title is [k], in store order. *)
Definition candidates_for (files : metadata) (k : string) : list file_info :=
  filter (fun info => lower (title info) = k) files.

(** A stored file has a topic that equals, up to case, a requested one. *)
Definition shares_topic (requested : list string) (info : file_info) : Prop :=
  exists topic t,
    topic ∈ requested /\ t ∈ default [] (topics info)
    /\ lower topic = lower t.

End WithStrOps.

Section WithClient.
Context `{Client}.

(** The part a file is attached as, when its path is present on disk
    and the upload succeeds; [None] when it degrades to its summary. *)
Definition attachment (info : file_dict) : option part :=
  match fd_file_path info with
  | Some path =>
      if truthy path && path_exists path then
        match files_upload path with
        | Ok uploaded => Some (Part_from_uri (uri uploaded) "application/pdf")
        | Raise _ => None
        end
      else None
  | None => None
  end.

(** The summary block a degraded file contributes to the prompt. *)
Definition summary_block (info : file_dict) : string :=
  _format_single_file_context info +:+ nl.

(** The text put in front of the prompt by the files that degrade: the
    block of a later file comes first. *)
Definition degraded_prefix (files : list file_dict) : string :=
  foldl (fun acc info =>
           match attachment info with
           | Some _ => acc
           | None => summary_block info +:+ acc
           end) EmptyString files.

(** The calls made so far, in order. *)
Definition calls_made (v : vars) : list function_call := (executed v).*1.

(** The step headings of a log, in order: each with its number and the
    tool it names. *)
Definition logged_steps (log : list App.log_entry) : list (nat * string) :=
  omap (fun entry =>
          match entry with
          | App.LogStep n tool => Some (n, tool)
          | _ => None
          end) log.

(** The steps of a log are the calls made, in order and numbered from 1,
    and the step counter is one above their number. *)
Definition steps_in_order (st : App.gradio_state) : Prop :=
  logged_steps (App.function_call_log st)
  = zip (seq 1 (length (calls_made (App.g_vars st))))
        (name <$> calls_made (App.g_vars st))
  /\ App.step_number st = S (length (calls_made (App.g_vars st))).

(** A decision engine that answers every request with a batch of
    non-terminal tool calls, through a chat session or from an explicit
    history. *)
Definition always_calls_tools : Prop :=
  (forall c m, exists r, (send_message c m).2 = Ok r /\ tool_batch r)
  /\ (forall history, exists r, generate_content history = Ok r /\ tool_batch r).

End WithClient.

Section WithStore.
Context `{StrOps}.
Variable memory : memory_data.
Variable files : metadata.

(** What a call to a tool other than the terminal one returns: it depends
    on the call and on the two stores only. *)
Definition tool_output (fc : function_call) : option tool_result :=
  if String.eqb (name fc) "get_knowledge_level" then
    Some (KnowledgeLevel
            (get_knowledge_level memory (default [] (subjects (args fc)))))
  else if String.eqb (name fc) "select_relevant_files" then
    Some (Selection
            (select_files_by_titles files (default [] (file_titles (args fc)))))
  else None.

(** The knowledge-level result held after the given calls: the one of
    the last lookup among them, else the one held before. *)
Definition knowledge_after (calls : list function_call)
    (before : option knowledge_result) : option knowledge_result :=
  match list.last (filter (fun fc => name fc = "get_knowledge_level") calls) with
  | Some fc =>
      Some (get_knowledge_level memory (default [] (subjects (args fc))))
  | None => before
  end.

(** The selection held after the given calls, likewise. *)
Definition selection_after (calls : list function_call)
    (before : option selection) : option selection :=
  match list.last (filter (fun fc => name fc = "select_relevant_files") calls) with
  | Some fc =>
      Some (select_files_by_titles files (default [] (file_titles (args fc))))
  | None => before
  end.

End WithStore.

End Notions.

(** * Properties *)

Module PyDictFacts.

Lemma dict_get_set_eq {V : Type} (k : string) (v : V) (d : pydict V) :
  dict_get k (dict_set k v d) = Some v.
Proof.
  induction d as [|[k' v'] d IH]; simpl.
  - by rewrite String.eqb_refl.
  - destruct (String.eqb k' k) eqn:E; simpl; rewrite E; auto.
Qed.

Lemma dict_get_set_ne {V : Type} (k j : string) (v : V) (d : pydict V) :
  k ≠ j -> dict_get j (dict_set k v d) = dict_get j d.
Proof.
  intros Hne. induction d as [|[k' v'] d IH]; simpl.
  - destruct (String.eqb_spec k j); congruence.
  - destruct (String.eqb_spec k' k) as [->|Hk]; simpl.
    + destruct (String.eqb_spec k j); congruence.
    + destruct (String.eqb_spec k' j); auto.
Qed.

(** Filling a dictionary key by key: a key that was set holds the value
    computed for it, any other key is untouched. *)
Lemma dict_get_fill {V : Type} (f : string -> V) (keys : list string)
    (d : pydict V) (k : string) :
  dict_get k (foldl (fun acc j => dict_set j (f j) acc) d keys)
  = if bool_decide (k ∈ keys) then Some (f k) else dict_get k d.
Proof.
  induction keys as [|j keys IH] using rev_ind.
  - cbn [foldl]. rewrite bool_decide_eq_false_2; [done|]. apply not_elem_of_nil.
  - rewrite foldl_app. cbn [foldl].
    destruct (decide (j = k)) as [->|Hne].
    + rewrite dict_get_set_eq, bool_decide_eq_true_2; [done|].
      apply elem_of_app. right. by apply list_elem_of_singleton.
    + rewrite dict_get_set_ne, IH by done.
      destruct (decide (k ∈ keys)) as [Hin|Hin].
      * rewrite !bool_decide_eq_true_2; [done | | done].
        apply elem_of_app. by left.
      * rewrite !bool_decide_eq_false_2; [done | | done].
        rewrite elem_of_app, list_elem_of_singleton. intros [?|?]; congruence.
Qed.

End PyDictFacts.

Module MemoryToolFacts.
Import MemoryTool PyDictFacts.

(** C5 (as the specification states it, refuted): with nothing stored
    for ["astronomy"], the record returned for it does not have the
    description ["<no data>"]. *)
Lemma knowledge_absent_not_no_data :
  dict_get "astronomy"
    (subjects_info (get_knowledge_level empty_memory ["astronomy"]))
  <> Some {| level := "unknown"; detailed_description := "<no data>" |}.
Proof. vm_compute. discriminate. Qed.

(** C5 (amended): every requested subject is a key of [subjects_info].
    A subject the store does not hold maps to level ["unknown"] with the
    description "未找到关于 <subject> 的知识水平信息"; a stored subject maps
    to its stored level and description, with ["unknown"] and the empty
    string for a missing member.  The function is total: a missing or
    empty store makes every subject absent. *)
Theorem knowledge_level_of_requested (data : memory_data)
    (subjects : list string) (s : string) :
  s ∈ subjects ->
  dict_get s (subjects_info (get_knowledge_level data subjects))
  = Some match default ∅ (knowledge_levels data) !! s with
         | Some entry =>
             {| level := default "unknown" (entry_level entry);
                detailed_description :=
                  default EmptyString (entry_detailed_description entry) |}
         | None =>
             {| level := "unknown";
                detailed_description :=
                  "未找到关于 " +:+ s +:+ " 的知识水平信息" |}
         end.
Proof.
  intros Hin. unfold get_knowledge_level. simpl.
  rewrite (dict_get_fill (subject_record (default ∅ (knowledge_levels data)))).
  by rewrite bool_decide_eq_true_2.
Qed.

Lemma knowledge_level_of_requested_witness :
  dict_get "algebra"
    (subjects_info (get_knowledge_level Stub.sample_memory ["astronomy"; "algebra"]))
  = Some {| level := "unknown";
            detailed_description := "未找到关于 algebra 的知识水平信息" |}.
Proof.
  refine (eq_trans
    (knowledge_level_of_requested Stub.sample_memory ["astronomy"; "algebra"]
       "algebra" _) _).
  - set_solver.
  - vm_compute. reflexivity.
Defined.

(** Only requested subjects are keys of the result. *)
Lemma knowledge_level_keys (data : memory_data) (subjects : list string)
    (s : string) :
  s ∉ subjects ->
  dict_get s (subjects_info (get_knowledge_level data subjects)) = None.
Proof.
  intros Hin. unfold get_knowledge_level. simpl.
  rewrite (dict_get_fill (subject_record (default ∅ (knowledge_levels data)))).
  by rewrite bool_decide_eq_false_2.
Qed.

End MemoryToolFacts.

Module SelectFileToolFacts.
Import SelectFileTool Notions.

Section WithStrOps.
Context `{StrOps}.

(** The dict comprehension keeps, for each key, the last file with it. *)
Lemma title_map_lookup (files : metadata) (k : string) :
  title_map files !! k = list.last (candidates_for files k).
Proof.
  unfold title_map, candidates_for.
  induction files as [|info files IH] using rev_ind; [done|].
  rewrite foldl_app, list.filter_app. cbn [foldl].
  destruct (decide (lower (title info) = k)) as [Hk|Hk].
  - rewrite Hk, lookup_insert_eq.
    rewrite (filter_cons_True _ info []) by done.
    by rewrite filter_nil, last_snoc.
  - rewrite lookup_insert_ne by done.
    rewrite (filter_cons_False _ info []) by done.
    by rewrite filter_nil, app_nil_r.
Qed.

Lemma title_map_is_Some (files : metadata) (t : string) :
  is_Some (title_map files !! lower t) <-> stored files t.
Proof.
  rewrite title_map_lookup. unfold stored, candidates_for.
  rewrite list_elem_of_fmap. split.
  - intros [info Hlast]. apply last_Some in Hlast as [l' Hl'].
    assert (info ∈ filter (fun i => lower (title i) = lower t) files) as Hin
      by (rewrite Hl'; set_solver).
    apply list_elem_of_filter in Hin as [Heq Hin]. eauto.
  - intros (info & Heq & Hin).
    assert (info ∈ filter (fun i => lower (title i) = lower t) files) as Hf
      by (apply list_elem_of_filter; auto).
    destruct (filter _ files) as [|x l] eqn:E using rev_ind.
    + set_solver.
    + rewrite last_snoc. eauto.
Qed.

(** The loop over the requested titles, from any pair of accumulators. *)
Lemma select_loop (tm : gmap string file_info) (titles : list string)
    (sel : list file_dict) (nf : list string) :
  foldl (select_step tm) (sel, nf) titles
  = (sel ++ omap (fun t => entry_of <$> tm !! lower t) titles,
     nf ++ filter (fun t => tm !! lower t = None) titles).
Proof.
  revert sel nf. induction titles as [|t titles IH]; intros sel nf.
  - cbn. by rewrite !app_nil_r.
  - cbn [foldl]. unfold select_step at 2. cbn [fst snd omap list_omap].
    destruct (tm !! lower t) as [info|] eqn:E; rewrite IH.
    + rewrite filter_cons_False by (rewrite E; done).
      cbn [fmap option_fmap option_map]. by rewrite <- app_assoc.
    + rewrite filter_cons_True by done.
      cbn [fmap option_fmap option_map]. by rewrite <- app_assoc.
Qed.

Lemma selected_files_eq (files : metadata) (titles : list string) :
  selected_files (select_files_by_titles files titles)
  = omap (fun t => entry_of <$> title_map files !! lower t) titles.
Proof. unfold select_files_by_titles. cbn. by rewrite select_loop. Qed.

Lemma not_found_eq (files : metadata) (titles : list string) :
  not_found (select_files_by_titles files titles)
  = filter (fun t => ¬ stored files t) titles.
Proof.
  unfold select_files_by_titles. cbn. rewrite select_loop. cbn.
  apply list_filter_iff. intros t.
  rewrite <- title_map_is_Some, eq_None_not_Some. done.
Qed.

Lemma length_omap_filter {A B : Type} (f : A -> option B) (l : list A) :
  length (omap f l) = length (filter (fun x => is_Some (f x)) l).
Proof.
  induction l as [|x l IH]; [done|]. cbn [omap list_omap].
  destruct (f x) as [y|] eqn:E.
  - rewrite filter_cons_True by (rewrite E; eauto). cbn. by rewrite IH.
  - rewrite filter_cons_False by (rewrite E; by intros [? ?]). done.
Qed.

Lemma length_filter_split {A : Type} (P : A -> Prop)
    `{!forall x, Decision (P x)} (l : list A) :
  length (filter P l) + length (filter (fun x => ¬ P x) l) = length l.
Proof.
  induction l as [|x l IH]; [done|].
  destruct (decide (P x)).
  - rewrite filter_cons_True, filter_cons_False by auto. cbn. lia.
  - rewrite filter_cons_False, filter_cons_True by auto. cbn. lia.
Qed.

Lemma selected_length (files : metadata) (titles : list string) :
  length (selected_files (select_files_by_titles files titles))
  = length (filter (stored files) titles).
Proof.
  rewrite selected_files_eq, length_omap_filter. f_equal.
  apply list_filter_iff. intros t.
  rewrite <- title_map_is_Some, fmap_is_Some. done.
Qed.

Lemma selected_from_store (files : metadata) (titles : list string)
    (d : file_dict) :
  d ∈ selected_files (select_files_by_titles files titles) ->
  exists info t, info ∈ files /\ t ∈ titles
                 /\ lower (title info) = lower t /\ d = entry_of info.
Proof.
  rewrite selected_files_eq, list_elem_of_omap.
  intros (t & Ht & Hd).
  destruct (title_map files !! lower t) as [info|] eqn:E; [|done].
  injection Hd as <-. exists info, t.
  rewrite title_map_lookup in E. apply last_Some in E as [l' Hl'].
  assert (info ∈ candidates_for files (lower t)) as Hin
    by (rewrite Hl'; set_solver).
  apply list_elem_of_filter in Hin as [Heq Hin]. auto.
Qed.

End WithStrOps.

(** C6: document selection partitions the requested titles and is total.
    [not_found] holds, in request order, the titles that match no stored
    title; [selected_files] holds one entry, built from a stored file,
    for each of the others; [total_selected] is the length of
    [selected_files].  Selecting ["known.pdf"] and ["missing.pdf"] from
    a store that holds only [known.pdf] selects that one file and
    reports ["missing.pdf"]. *)
Theorem selection_partitions_request `{StrOps} (files : metadata)
    (titles : list string) :
  let r := select_files_by_titles files titles in
  not_found r = filter (fun t => ¬ stored files t) titles
  /\ length (selected_files r) = length (filter (stored files) titles)
  /\ (forall d, d ∈ selected_files r ->
        exists info t, info ∈ files /\ t ∈ titles
                       /\ lower (title info) = lower t /\ d = entry_of info)
  /\ length (selected_files r) + length (not_found r) = length titles
  /\ total_selected r = length (selected_files r)
  /\ (let r' := @select_files_by_titles Stub.ascii_ops [Stub.known_pdf]
                  ["known.pdf"; "missing.pdf"] in
      selected_files r' = [entry_of Stub.known_pdf]
      /\ length (selected_files r') = 1
      /\ not_found r' = ["missing.pdf"]
      /\ total_selected r' = 1).
Proof.
  intros r. subst r.
  split; [apply not_found_eq|].
  split; [apply selected_length|].
  split; [apply selected_from_store|].
  split.
  { rewrite selected_length, not_found_eq. apply length_filter_split. }
  split; [done|].
  vm_compute. auto.
Qed.

(** C9 (as stated, refuted): the store holds [A.pdf] and then [a.pdf].
    The request ["A.pdf"] matches the stored title ["A.pdf"], yet the
    entry returned is not the one of that file. *)
Lemma case_collision_drops_earlier_file :
  let files := [Stub.upper_title_pdf; Stub.lower_title_pdf] in
  let r := @select_files_by_titles Stub.ascii_ops files ["A.pdf"] in
  Stub.upper_title_pdf ∈ files
  /\ @lower Stub.ascii_ops "A.pdf" = @lower Stub.ascii_ops (title Stub.upper_title_pdf)
  /\ selected_files r = [entry_of Stub.lower_title_pdf]
  /\ entry_of Stub.upper_title_pdf ∉ selected_files r.
Proof.
  cbv zeta. split; [set_solver|]. split; [done|].
  assert (selected_files
            (@select_files_by_titles Stub.ascii_ops
               [Stub.upper_title_pdf; Stub.lower_title_pdf] ["A.pdf"])
          = [entry_of Stub.lower_title_pdf]) as -> by (vm_compute; done).
  split; [done|].
  intros Hin. apply list_elem_of_singleton in Hin. discriminate Hin.
Qed.

(** C9 (amended): matching is case-insensitive.  When a requested title
    has the lower-cased form of a stored title, it is not reported in
    [not_found], and [selected_files] holds the entry of the last stored
    file with that lower-cased title, carrying that file's own title,
    path, URI, summary and topics; when no other stored file shares the
    lower-cased title, this is the file the title was matched with. *)
Theorem case_insensitive_selection `{StrOps} (files : metadata)
    (titles : list string) (info : file_info) (t : string) :
  info ∈ files -> t ∈ titles -> lower t = lower (title info) ->
  let r := select_files_by_titles files titles in
  (t ∉ not_found r)
  /\ exists chosen,
       list.last (candidates_for files (lower t)) = Some chosen
       /\ chosen ∈ files
       /\ lower (title chosen) = lower t
       /\ {| fd_title := Some (title chosen);
             fd_file_path := Some (file_path chosen);
             fd_file_uri := Some (file_uri chosen);
             fd_content_summary :=
               Some (default EmptyString (content_summary chosen));
             fd_topics := Some (default [] (topics chosen)) |}
            ∈ selected_files r
       /\ ((forall other, other ∈ files ->
              lower (title other) = lower t -> other = info) ->
           chosen = info).
Proof.
  intros Hinfo Ht Hlow r. subst r.
  assert (stored files t) as Hst.
  { unfold stored. apply list_elem_of_fmap. eauto. }
  split.
  { rewrite not_found_eq, list_elem_of_filter. tauto. }
  apply title_map_is_Some in Hst as [chosen Hch].
  exists chosen.
  assert (chosen ∈ candidates_for files (lower t)) as Hin.
  { rewrite title_map_lookup in Hch.
    apply last_Some in Hch as [l' ->]. set_solver. }
  apply list_elem_of_filter in Hin as [Heq Hin].
  split; [by rewrite <- title_map_lookup|].
  split; [done|]. split; [done|]. split.
  - rewrite selected_files_eq, list_elem_of_omap.
    exists t. split; [done|]. by rewrite Hch.
  - intros Huniq. by apply Huniq.
Qed.

Lemma case_insensitive_selection_witness :
  let r := @select_files_by_titles Stub.ascii_ops [Stub.known_pdf] ["KNOWN.PDF"] in
  ("KNOWN.PDF" ∉ not_found r)
  /\ exists chosen,
       list.last (@candidates_for Stub.ascii_ops [Stub.known_pdf]
                    (@lower Stub.ascii_ops "KNOWN.PDF")) = Some chosen
       /\ chosen ∈ [Stub.known_pdf]
       /\ @lower Stub.ascii_ops (title chosen) = @lower Stub.ascii_ops "KNOWN.PDF"
       /\ {| fd_title := Some (title chosen);
             fd_file_path := Some (file_path chosen);
             fd_file_uri := Some (file_uri chosen);
             fd_content_summary :=
               Some (default EmptyString (content_summary chosen));
             fd_topics := Some (default [] (topics chosen)) |}
            ∈ selected_files r
       /\ ((forall other, other ∈ [Stub.known_pdf] ->
              @lower Stub.ascii_ops (title other) = @lower Stub.ascii_ops "KNOWN.PDF" ->
              other = Stub.known_pdf) ->
           chosen = Stub.known_pdf).
Proof.
  apply (@case_insensitive_selection Stub.ascii_ops [Stub.known_pdf]
           ["KNOWN.PDF"] Stub.known_pdf "KNOWN.PDF").
  - apply list_elem_of_singleton. reflexivity.
  - apply list_elem_of_singleton. reflexivity.
  - vm_compute. reflexivity.
Defined.

End SelectFileToolFacts.

Module ResponseGeneratorFacts.
Import MemoryTool SelectFileTool ResponseGeneratorTool Notions.

Lemma append_assoc (a b c : string) : (a +:+ b) +:+ c = a +:+ (b +:+ c).
Proof.
  induction a as [|x a IH]; [reflexivity|].
  change (String x ((a +:+ b) +:+ c) = String x (a +:+ (b +:+ c))).
  by f_equal.
Qed.

Lemma append_empty_r (a : string) : a +:+ EmptyString = a.
Proof.
  induction a as [|x a IH]; [reflexivity|].
  change (String x (a +:+ EmptyString) = String x a).
  by f_equal.
Qed.

Lemma occurs_in_extend (needle text front : string) :
  occurs_in needle text -> occurs_in needle (front +:+ text).
Proof.
  intros (before & after & ->). exists (front +:+ before), after.
  by rewrite append_assoc.
Qed.

Section WithClient.
Context `{Client}.

Lemma attach_file_cases (acc : list part * string) (info : file_dict) :
  attach_file acc info
  = match attachment info with
    | Some p => (acc.1 ++ [p], acc.2)
    | None => (acc.1, summary_block info +:+ acc.2)
    end.
Proof.
  unfold attach_file, attachment, summary_block.
  destruct (fd_file_path info) as [path|]; [|by rewrite append_assoc].
  destruct (truthy path && path_exists path); [|by rewrite append_assoc].
  destruct (files_upload path); [done | by rewrite append_assoc].
Qed.

Lemma attach_loop (files : list file_dict) (ps : list part) (prompt : string) :
  foldl attach_file (ps, prompt) files
  = (ps ++ omap attachment files, degraded_prefix files +:+ prompt).
Proof.
  induction files as [|info files IH] using rev_ind.
  - cbn. by rewrite app_nil_r.
  - unfold degraded_prefix. rewrite !foldl_app. cbn [foldl].
    rewrite IH, attach_file_cases, omap_app. cbn [fst snd omap list_omap].
    fold (degraded_prefix files).
    destruct (attachment info); cbn.
    + by rewrite app_assoc.
    + by rewrite app_nil_r, append_assoc.
Qed.

Lemma attach_files_eq (files : list file_dict) (prompt : string) :
  attach_files files prompt
  = (omap attachment files, degraded_prefix files +:+ prompt).
Proof. unfold attach_files. by rewrite attach_loop. Qed.



Lemma open_stream_files (st : tool_state) (files : list file_dict)
    (prompt0 : string) :
  open_stream st prompt0 (Some files)
  = let prompt := degraded_prefix files +:+ prompt0 in
    match omap attachment files with
    | [] => let '(st', s) := chat_stream st prompt in (prompt, st', s)
    | (_ :: _) as content_parts =>
        (prompt, st,
         Ok (generate_content_stream (content_parts ++ [Part_text prompt])))
    end.
Proof.
  unfold open_stream. destruct files as [|info files]; [done|].
  rewrite attach_files_eq.
  destruct (omap attachment (info :: files)) as [|p ps]; [done|].
  cbn [length app]. rewrite length_app. cbn [length].
  replace (1 <? S (length ps + 1)) with true; [done|].
  symmetry. apply Nat.ltb_lt. lia.
Qed.

End WithClient.

(** C3 (as stated, refuted): the stream delivers ["Hello, "] and
    ["world"] and then raises.  The text accumulated up to the failure
    is ["Hello, world"], and what the composer returns is the error
    notice alone: it does not start with the accumulated text. *)
Lemma partial_output_is_discarded :
  let out :=
    (@generate_response_stream Stub.broken_client
       (@initial_state Stub.broken_client) "q" None None).1 in
  accumulate EmptyString (chunks Stub.broken_stream) = "Hello, world"
  /\ out = "抱歉，生成响应时出现错误: connection reset"
  /\ forall notice, out <> "Hello, world" +:+ notice.
Proof.
  cbv zeta. split; [vm_compute; reflexivity|].
  assert ((@generate_response_stream Stub.broken_client
             (@initial_state Stub.broken_client) "q" None None).1
          = "抱歉，生成响应时出现错误: connection reset") as ->
    by (vm_compute; reflexivity).
  split; [reflexivity|]. intros notice Heq. vm_compute in Heq. discriminate Heq.
Qed.

(** C3 (amended): when the stream the composer consumes raises [e], the
    composer returns the notice "抱歉，生成响应时出现错误: <e>" and nothing
    else, whatever chunks were consumed before the failure; the notice is
    also what the history records as the assistant's turn. *)
Theorem stream_failure_returns_notice `{Client} (st : tool_state)
    (query : string) (knowledge : option knowledge_result)
    (selected : option (list file_dict))
    (prompt : string) (st' : tool_state) (s : stream) (e : exn) :
  open_stream st (initial_prompt query knowledge) selected = (prompt, st', Ok s) ->
  failure s = Some e ->
  generate_response_stream st query knowledge selected
  = ("抱歉，生成响应时出现错误: " +:+ e,
     {| chat := chat st';
        conversation_history :=
          conversation_history st'
            ++ [("user", prompt);
                ("assistant", "抱歉，生成响应时出现错误: " +:+ e)] |}).
Proof.
  intros Hopen Hfail. unfold generate_response_stream.
  rewrite Hopen. unfold consume. rewrite Hfail. reflexivity.
Qed.

Lemma stream_failure_returns_notice_witness :
  (@generate_response_stream Stub.broken_client
     (@initial_state Stub.broken_client) "q" None None).1
  = "抱歉，生成响应时出现错误: connection reset".
Proof.
  rewrite (@stream_failure_returns_notice Stub.broken_client
             (@initial_state Stub.broken_client) "q" None None
             _ _ Stub.broken_stream "connection reset"
             eq_refl eq_refl).
  reflexivity.
Defined.




(** Of three selected files whose second path is not on disk, the first
    and third are attached and the second is summarised in the prompt. *)
Example two_attached_one_summarised :
  let files := [Stub.selected "one"; Stub.selected "two"; Stub.selected "three"] in
  let r := @attach_files Stub.two_of_three_client files "PROMPT" in
  r.1 = [Part_from_uri "uri:files/one.pdf" "application/pdf";
         Part_from_uri "uri:files/three.pdf" "application/pdf"]
  /\ r.2 = (_format_single_file_context (Stub.selected "two") +:+ nl) +:+ "PROMPT".
Proof. vm_compute. auto. Qed.

End ResponseGeneratorFacts.

Module DirectorFacts.
Import MemoryTool SelectFileTool ResponseGeneratorTool Director Notions.

Section WithServices.
Context `{StrOps} `{Client}.
Variable memory : memory_data.
Variable files : metadata.

Lemma eqb_false (a b : string) : a <> b -> String.eqb a b = false.
Proof. intros Hne. by destruct (String.eqb_spec a b). Qed.

Lemma execute_unregistered (g : tool_state) (fc : function_call)
    (query : string) (k : option knowledge_result) (f : option selection) :
  unregistered (name fc) ->
  execute_function memory files g fc query k f = (None, g).
Proof.
  intros (H1 & H2 & H3). unfold execute_function.
  by rewrite (eqb_false _ _ H1), (eqb_false _ _ H2), (eqb_false _ _ H3).
Qed.

(** Every payload of a terminal call reports the length of its own
    response. *)
Lemma response_length_is_len (g : tool_state) (fc : function_call)
    (query : string) (k : option knowledge_result) (f : option selection)
    (p : response_payload) (g' : tool_state) :
  execute_function memory files g fc query k f = (Some (DetailedResponse p), g') ->
  response_length p = py_len (response p).
Proof.
  unfold execute_function.
  repeat destruct (String.eqb (name fc) _); try discriminate.
  destruct (generate_response_stream _ _ _ _) as [text g2].
  intros [= <- _]. reflexivity.
Qed.

End WithServices.

(** C4 (as stated, refuted): for a tool name that is not registered the
    executor returns [None]: there is no result value at all, so none
    with an error status and the message ["unknown tool"]. *)
Lemma unknown_tool_yields_no_result :
  let out :=
    (@execute_function Stub.ascii_ops Stub.looping_client
       Stub.sample_memory [Stub.known_pdf]
       (@initial_state Stub.looping_client) Stub.unknown_call "q" None None).1 in
  out = None /\ ~ (exists r : tool_result, out = Some r).
Proof.
  cbv zeta.
  assert ((@execute_function Stub.ascii_ops Stub.looping_client
             Stub.sample_memory [Stub.known_pdf]
             (@initial_state Stub.looping_client) Stub.unknown_call "q" None None).1
          = None) as -> by (vm_compute; reflexivity).
  split; [reflexivity|]. intros [r Hr]. discriminate Hr.
Qed.

(** C10: a terminal call that carries neither flag ignores what the
    session has accumulated: the composer is called with the query and
    with [None] for both the knowledge level and the files, and the
    payload reports both flags as [False], the composer's text as the
    response, and the length of that text. *)
Theorem terminal_flags_default_to_false `{StrOps} `{Client}
    (memory : memory_data) (files : metadata) (g : tool_state)
    (fc : function_call) (query : string)
    (knowledge : option knowledge_result) (selection : option selection) :
  name fc = "generate_detailed_response" ->
  use_knowledge_level (args fc) = None ->
  use_selected_files (args fc) = None ->
  let composed :=
    generate_response_stream g (default query (user_query (args fc)))
      None None in
  execute_function memory files g fc query knowledge selection
  = (Some (DetailedResponse
             {| response := composed.1;
                used_knowledge_level := false;
                used_files := false;
                response_length := py_len composed.1 |}),
     composed.2).
Proof.
  intros Hname Hk Hf. cbv zeta. unfold execute_function.
  rewrite Hname, Hk, Hf. cbn [String.eqb default].
  replace ("generate_detailed_response" =? "get_knowledge_level")%string
    with false by (vm_compute; reflexivity).
  replace ("generate_detailed_response" =? "select_relevant_files")%string
    with false by (vm_compute; reflexivity).
  replace ("generate_detailed_response" =? "generate_detailed_response")%string
    with true by (vm_compute; reflexivity).
  cbn [default]. by destruct (generate_response_stream _ _ _ _).
Qed.

Lemma terminal_flags_default_to_false_witness :
  (@execute_function Stub.ascii_ops Stub.looping_client
     Stub.sample_memory [Stub.known_pdf]
     (@initial_state Stub.looping_client)
     (Stub.terminal_call (Some "the sun") None None) "q"
     (Some (get_knowledge_level Stub.sample_memory ["astronomy"]))
     (Some (@select_files_by_titles Stub.ascii_ops [Stub.known_pdf] ["known.pdf"]))).1
  = Some (DetailedResponse
            {| response := "answer"; used_knowledge_level := false;
               used_files := false; response_length := 6 |}).
Proof.
  rewrite (@terminal_flags_default_to_false Stub.ascii_ops Stub.looping_client
             Stub.sample_memory [Stub.known_pdf]
             (@initial_state Stub.looping_client)
             (Stub.terminal_call (Some "the sun") None None) "q"
             (Some (get_knowledge_level Stub.sample_memory ["astronomy"]))
             (Some (@select_files_by_titles Stub.ascii_ops [Stub.known_pdf]
                      ["known.pdf"]))
             eq_refl eq_refl eq_refl).
  vm_compute. reflexivity.
Defined.

End DirectorFacts.

Module LoopFacts.
Import MemoryTool SelectFileTool ResponseGeneratorTool Director Notions.

(** Decide the three tests on the name of a call. *)
Ltac name_cases fc :=
  destruct (String.eqb_spec (name fc) "get_knowledge_level");
  [| destruct (String.eqb_spec (name fc) "select_relevant_files");
     [| destruct (String.eqb_spec (name fc) "generate_detailed_response")]].

Section WithServices.
Context `{StrOps} `{Client}.
Variable memory : memory_data.
Variable files : metadata.

Lemma call_made (v : vars) (fc : function_call) (query : string) :
  calls_made (call memory files v fc query).2 = calls_made v ++ [fc].
Proof.
  unfold call, calls_made. destruct (execute_function _ _ _ _ _ _ _).
  cbn. by rewrite fmap_app.
Qed.


(** In [process_query] and [process_query_with_chat] the batch ends at
    the terminal call: what follows it in the batch plays no part. *)
Lemma run_batch_stops_at_terminal (before after : list function_call)
    (fc : function_call) :
  Forall nonterminal before ->
  name fc = "generate_detailed_response" ->
  forall (query : string) (v : vars) (frs : list part),
  exists v1 result v2,
    call memory files v1 fc query = (result, v2)
    /\ run_batch memory files (before ++ fc :: after) query v frs
       = (v2, AtTerminal result)
    /\ calls_made v2 = calls_made v ++ before ++ [fc].
Proof.
  intros Hbefore Hname.
  induction Hbefore as [|b before Hb _ IH]; intros query v frs.
  - cbn [app run_batch].
    pose proof (call_made v fc query) as Hmade.
    destruct (call memory files v fc query) as [result v2] eqn:Hcall.
    exists v, result, v2. split; [done|]. split; [|done].
    rewrite Hname. reflexivity.
  - cbn [app run_batch].
    pose proof (call_made v b query) as Hmade.
    destruct (call memory files v b query) as [result v1]. cbn in Hmade.
    name_cases b; [| | done |].
    + destruct (IH query (set_knowledge v1 result)
                  (frs ++ [Part_from_function_response (name b) result]))
        as (w1 & r & w2 & Hc & -> & Hm).
      exists w1, r, w2. split; [done|]. split; [done|].
      rewrite Hm. unfold calls_made in *. cbn. rewrite Hmade.
      by rewrite <- app_assoc.
    + destruct (IH query (set_selection v1 result)
                  (frs ++ [Part_from_function_response (name b) result]))
        as (w1 & r & w2 & Hc & -> & Hm).
      exists w1, r, w2. split; [done|]. split; [done|].
      rewrite Hm. unfold calls_made in *. cbn. rewrite Hmade.
      by rewrite <- app_assoc.
    + destruct (IH query v1
                  (frs ++ [Part_from_function_response (name b) result]))
        as (w1 & r & w2 & Hc & -> & Hm).
      exists w1, r, w2. split; [done|]. split; [done|].
      rewrite Hm, Hmade. by rewrite <- app_assoc.
Qed.

End WithServices.

Section Loops.
Context `{StrOps} `{Client}.
Variable memory : memory_data.
Variable files : metadata.

Lemma next_decision_counts (s : session) (resp : generate_response)
    (frs : list part) :
  let s' := (next_decision s resp frs).1 in
  iteration s' = iteration s /\ decisions s' = S (decisions s)
  /\ s_vars s' = s_vars s.
Proof.
  unfold next_decision. destruct (s_chat s) as [c|]; [|done].
  by destruct (send_message c _).
Qed.

Lemma first_decision_counts (g : tool_state) (chat : option chat_session)
    (query : string) :
  let s := (first_decision g chat query).1 in
  iteration s = 0 /\ decisions s = 1 /\ s_vars s = initial_vars g.
Proof.
  unfold first_decision. destruct chat as [c|]; [|done].
  by destruct (send_message c _).
Qed.



(** *** [process_query_with_chat] *)



(** *** [process_query] of main.py *)





End Loops.




Section Batches.
Context `{StrOps} `{Client}.
Variable memory : memory_data.
Variable files : metadata.

(** [process_query_with_chat] returns at the terminal call of a batch
    with that call's response; the calls after it are not made. *)
Lemma chat_loop_stops_at_terminal (k : nat) (query : string) (s : session)
    (resp : generate_response) (before after : list function_call)
    (fc : function_call) :
  extract_function_calls resp = Ok (before ++ fc :: after) ->
  Forall nonterminal before ->
  name fc = "generate_detailed_response" ->
  exists v1 result v2,
    call memory files v1 fc query = (result, v2)
    /\ App.chat_loop memory files (S k) query s resp
       = (response_of result, with_vars (tick s) v2)
    /\ calls_made v2 = calls_made (s_vars s) ++ before ++ [fc].
Proof.
  intros Hcalls Hbefore Hname. cbn [App.chat_loop]. rewrite Hcalls.
  destruct (run_batch_stops_at_terminal memory files before after fc
              Hbefore Hname query (s_vars (tick s)) [])
    as (v1 & result & v2 & Hcall & Hrun & Hmade).
  exists v1, result, v2. split; [done|]. split; [|done].
  destruct (before ++ fc :: after) as [|c cs] eqn:Heq.
  - by destruct before.
  - by rewrite Hrun.
Qed.

(** [process_query] of main.py does the same and prints the
    completion banner. *)
Lemma main_loop_stops_at_terminal (k : nat) (query : string) (s : session)
    (resp : generate_response) (before after : list function_call)
    (fc : function_call) :
  extract_function_calls resp = Ok (before ++ fc :: after) ->
  Forall nonterminal before ->
  name fc = "generate_detailed_response" ->
  exists v1 result v2,
    call memory files v1 fc query = (result, v2)
    /\ Main.loop memory files (S k) query s resp
       = (Main.Completed, with_vars (tick s) v2)
    /\ calls_made v2 = calls_made (s_vars s) ++ before ++ [fc].
Proof.
  intros Hcalls Hbefore Hname. cbn [Main.loop]. rewrite Hcalls.
  destruct (run_batch_stops_at_terminal memory files before after fc
              Hbefore Hname query (s_vars (tick s)) [])
    as (v1 & result & v2 & Hcall & Hrun & Hmade).
  exists v1, result, v2. split; [done|]. split; [|done].
  destruct (before ++ fc :: after) as [|c cs] eqn:Heq.
  - by destruct before.
  - by rewrite Hrun.
Qed.

(** [process_query_for_gradio] makes every call of a batch, whatever
    its position relative to the terminal call. *)
Lemma gradio_batch_makes_every_call (calls : list function_call)
    (query : string) (st : App.gradio_state) (frs : list part) :
  calls_made (App.g_vars (App.gradio_batch memory files calls query st frs).1)
  = calls_made (App.g_vars st) ++ calls.
Proof.
  revert st frs. induction calls as [|fc calls IH]; intros st frs.
  - cbn. by rewrite app_nil_r.
  - cbn [App.gradio_batch].
    pose proof (call_made memory files (App.g_vars st) fc query) as Hmade.
    destruct (call memory files (App.g_vars st) fc query) as [result v].
    cbn in Hmade.
    assert (calls_made (App.record_result fc result st v).1.1 = calls_made v)
      as Hrec.
    { unfold App.record_result. name_cases fc; done. }
    destruct (App.record_result fc result st v) as [[v' final] lines].
    cbn in Hrec. rewrite IH. cbn [App.g_vars].
    by rewrite Hrec, Hmade, <- app_assoc.
Qed.

End Batches.

(** C1 (the code departs from it): the first response is the batch
    [get_knowledge_level], [generate_detailed_response],
    [select_relevant_files].  [process_query_for_gradio] makes all three
    calls, the third after the terminal one, logs it as step 3, and
    returns the terminal call's answer; [process_query_with_chat], on
    the same input, makes the first two calls only and returns the same
    answer. *)
Theorem gradio_loop_runs_past_terminal_call :
  let gradio :=
    @App.process_query_for_gradio Stub.ascii_ops Stub.mixed_batch_client
      Stub.sample_memory [Stub.known_pdf]
      (@initial_state Stub.mixed_batch_client) "the sun" in
  let chat :=
    @App.process_query_with_chat Stub.ascii_ops Stub.mixed_batch_client
      Stub.sample_memory [Stub.known_pdf]
      (@initial_state Stub.mixed_batch_client) "the sun" None in
  calls_made (App.g_vars gradio.2)
  = [Stub.knowledge_call ["astronomy"];
     Stub.terminal_call (Some "the sun") None None;
     Stub.select_call ["known.pdf"]]
  /\ App.LogStep 3 "select_relevant_files" ∈ App.function_call_log gradio.2
  /\ gradio.1.2 = "answer"
  /\ calls_made (s_vars chat.2)
     = [Stub.knowledge_call ["astronomy"];
        Stub.terminal_call (Some "the sun") None None]
  /\ chat.1 = "answer".
Proof.
  cbv zeta.
  split; [vm_compute; reflexivity|].
  split.
  { apply list_elem_of_lookup. exists 12. vm_compute. reflexivity. }
  split; [vm_compute; reflexivity|].
  split; vm_compute; reflexivity.
Qed.




End LoopFacts.

Module PyDictMore.
Import PyDictFacts.

(** The keys after [d[k] = v]. *)
Lemma dict_set_keys {V : Type} (k : string) (v : V) (d : pydict V) :
  (dict_set k v d).*1 = if bool_decide (k ∈ d.*1) then d.*1 else d.*1 ++ [k].
Proof.
  induction d as [|[k' v'] d IH]; [done|]. cbn [dict_set].
  destruct (String.eqb_spec k' k) as [->|Hne].
  - cbn. rewrite bool_decide_eq_true_2; [done | apply list_elem_of_here].
  - cbn. rewrite IH.
    destruct (decide (k ∈ d.*1)) as [Hin|Hin].
    + rewrite !bool_decide_eq_true_2; [done | by apply list_elem_of_further | done].
    + rewrite !bool_decide_eq_false_2; [done | | done].
      intros Hc. apply elem_of_cons in Hc as [?|?]; congruence.
Qed.

(** Filling a dictionary key by key keeps its keys distinct; the new keys
    are those that were set, each once, in the order they first came. *)
Lemma fill_keys {V : Type} (f : string -> V) (keys : list string) (d : pydict V) :
  NoDup d.*1 ->
  let r := (foldl (fun acc j => dict_set j (f j) acc) d keys).*1 in
  NoDup r
  /\ (forall k, k ∈ r <-> k ∈ d.*1 \/ k ∈ keys)
  /\ length r <= length d + length keys
  /\ (NoDup keys -> (forall k, k ∈ keys -> k ∉ d.*1) -> r = d.*1 ++ keys).
Proof.
  intros Hd. induction keys as [|j keys IH] using rev_ind; cbv zeta.
  - cbn [foldl]. split; [done|]. split.
    { intros k. rewrite elem_of_nil. tauto. }
    split; [rewrite length_fmap; cbn; lia|].
    intros _ _. by rewrite app_nil_r.
  - rewrite foldl_app. cbn [foldl]. rewrite dict_set_keys.
    cbv zeta in IH. destruct IH as (Hnd & Hmem & Hlen & Hord).
    set (r := (foldl (fun acc j0 => dict_set j0 (f j0) acc) d keys).*1) in *.
    rewrite length_app. cbn [length].
    destruct (decide (j ∈ r)) as [Hin|Hin].
    + rewrite bool_decide_eq_true_2 by done.
      split; [done|]. split.
      { intros k. rewrite Hmem, elem_of_app, list_elem_of_singleton.
        split; [tauto|]. intros [?|[?| ->]]; auto. by apply Hmem. }
      split; [lia|].
      intros Hnd2 Hfresh. exfalso.
      apply list.NoDup_app in Hnd2 as (_ & Hdis & _).
      apply Hmem in Hin as [Hin|Hin].
      * apply (Hfresh j); [|done]. apply elem_of_app. right.
        by apply list_elem_of_singleton.
      * apply (Hdis j Hin). by apply list_elem_of_singleton.
    + rewrite bool_decide_eq_false_2 by done.
      split.
      { apply list.NoDup_app. split; [done|]. split; [|apply NoDup_singleton].
        intros k Hk Hk2. apply list_elem_of_singleton in Hk2 as ->. done. }
      split.
      { intros k. rewrite !elem_of_app, list_elem_of_singleton, Hmem. tauto. }
      split; [rewrite length_app; cbn; lia|].
      intros Hnd2 Hfresh.
      apply list.NoDup_app in Hnd2 as (Hk & _ & _).
      rewrite Hord; [by rewrite app_assoc | done |].
      intros k Hk'. apply Hfresh, elem_of_app. by left.
Qed.

End PyDictMore.

Module MemoryToolMore.
Import MemoryTool PyDictMore.

(** X1: the keys of [subjects_info] are the requested subjects, each
    once: a subject requested several times gets one record.  There are
    at most as many records as requests, and a request without repetition
    is answered key for key in the order of the request. *)
Theorem requested_subjects_are_the_keys (data : memory_data)
    (subjects : list string) :
  let keys := (subjects_info (get_knowledge_level data subjects)).*1 in
  NoDup keys
  /\ (forall s, s ∈ keys <-> s ∈ subjects)
  /\ length keys <= length subjects
  /\ (NoDup subjects -> keys = subjects).
Proof.
  cbv zeta. unfold get_knowledge_level. cbn [subjects_info].
  destruct (fill_keys (subject_record (default ∅ (knowledge_levels data)))
              subjects [] (NoDup_nil_2)) as (Hnd & Hmem & Hlen & Hord).
  split; [done|]. split.
  { intros s. rewrite Hmem. cbn. rewrite elem_of_nil. tauto. }
  split; [cbn in Hlen; lia|].
  intros Hs. apply Hord; [done|]. intros k _. apply not_elem_of_nil.
Qed.

End MemoryToolMore.

Module SelectFileToolMore.
Import SelectFileTool Notions SelectFileToolFacts.

Section WithStrOps.
Context `{StrOps}.

(** When the lower-cased titles of the store are distinct, each stored
    file is the one its own title finds. *)
Lemma title_map_own_title (files : metadata) (info : file_info) :
  NoDup ((fun i => lower (title i)) <$> files) ->
  info ∈ files ->
  title_map files !! lower (title info) = Some info.
Proof.
  intros Hnd Hin. rewrite title_map_lookup. unfold candidates_for.
  induction files as [|x files IH] using rev_ind.
  - by apply elem_of_nil in Hin.
  - rewrite fmap_app in Hnd. apply list.NoDup_app in Hnd as (Hnd & Hdis & _).
    rewrite list.filter_app.
    apply elem_of_app in Hin as [Hin|Hin].
    + rewrite (filter_cons_False _ x []).
      * rewrite filter_nil, app_nil_r. by apply IH.
      * intros Heq. apply (Hdis (lower (title info))).
        -- apply list_elem_of_fmap. eauto.
        -- cbn. rewrite <- Heq. apply list_elem_of_here.
    + apply list_elem_of_singleton in Hin as ->.
      rewrite (filter_cons_True _ x []) by done.
      by rewrite filter_nil, last_snoc.
Qed.

Lemma stored_own_title (files : metadata) (info : file_info) :
  info ∈ files -> stored files (title info).
Proof. intros Hin. unfold stored. apply list_elem_of_fmap. eauto. Qed.

(** The loop over the stored files, from any accumulator. *)
Lemma match_loop (requested : list string) (files : metadata)
    (matched : list file_dict) :
  foldl (match_step requested) matched files
  = matched
      ++ (entry_of <$>
            filter (fun info =>
                      topic_matches requested (default [] (topics info)))
              files).
Proof.
  revert matched. induction files as [|info files IH]; intros matched.
  - cbn. by rewrite app_nil_r.
  - cbn [foldl]. rewrite IH. unfold match_step.
    destruct (topic_matches requested (default [] (topics info))) eqn:E.
    + rewrite filter_cons_True by (cbn beta; rewrite E; exact I).
      rewrite fmap_cons, <- app_assoc. done.
    + rewrite filter_cons_False by (cbn beta; rewrite E; intros []). done.
Qed.

Lemma topic_matches_spec (requested : list string) (info : file_info) :
  topic_matches requested (default [] (topics info)) = true
  <-> shares_topic requested info.
Proof.
  unfold topic_matches, shares_topic. rewrite existsb_exists. split.
  - intros (topic & Hin & Hb). apply bool_decide_eq_true in Hb.
    apply list_elem_of_fmap in Hb as (t & Heq & Ht).
    exists topic, t. split; [by apply list_elem_of_In|]. done.
  - intros (topic & t & Hin & Ht & Heq). exists topic.
    split; [by apply list_elem_of_In|].
    apply bool_decide_eq_true. apply list_elem_of_fmap. eauto.
Qed.

End WithStrOps.

(** X2: against an empty store (a missing or malformed metadata file
    loads as one) nothing is selected and every requested title is
    reported in [not_found], in request order. *)
Theorem empty_store_finds_nothing `{StrOps} (titles : list string) :
  select_files_by_titles [] titles
  = {| selected_files := []; not_found := titles; total_selected := 0 |}.
Proof.
  unfold select_files_by_titles. rewrite select_loop. cbn [fst snd app length].
  assert (omap (fun t => entry_of <$> title_map [] !! lower t) titles = []) as ->.
  { induction titles as [|t titles IH]; [done|]. cbn [omap list_omap].
    unfold title_map at 1. cbn [foldl]. by rewrite lookup_empty. }
  f_equal. induction titles as [|t titles IH]; [done|].
  rewrite filter_cons_True; [by rewrite IH|].
  unfold title_map. cbn [foldl]. apply lookup_empty.
Qed.

(** X3: a request is answered title by title, in order: the answer to
    two requests put end to end is the two answers put end to end, and
    the counts add up. *)
Theorem selection_of_joined_requests `{StrOps} (files : metadata)
    (first second : list string) :
  let whole := select_files_by_titles files (first ++ second) in
  let a := select_files_by_titles files first in
  let b := select_files_by_titles files second in
  selected_files whole = selected_files a ++ selected_files b
  /\ not_found whole = not_found a ++ not_found b
  /\ total_selected whole = total_selected a + total_selected b.
Proof.
  cbv zeta.
  assert (forall titles,
            total_selected (select_files_by_titles files titles)
            = length (selected_files (select_files_by_titles files titles)))
    as Htotal by done.
  rewrite !Htotal, !selected_files_eq, !not_found_eq.
  rewrite omap_app, list.filter_app, length_app. done.
Qed.

(** Requesting every stored title. *)
Lemma select_all_titles `{StrOps} (files : metadata) :
  let r := select_files_by_titles files (title <$> files) in
  not_found r = []
  /\ total_selected r = length files
  /\ (NoDup ((fun info => lower (title info)) <$> files) ->
      selected_files r = entry_of <$> files).
Proof.
  cbv zeta.
  assert (forall t, t ∈ title <$> files -> stored files t) as Hall.
  { intros t Ht. apply list_elem_of_fmap in Ht as (info & -> & Hin).
    by apply stored_own_title. }
  assert (not_found (select_files_by_titles files (title <$> files)) = []) as Hnf.
  { rewrite not_found_eq.
    induction (title <$> files) as [|t l IH]; [done|].
    rewrite filter_cons_False.
    - apply IH. intros t' Ht'. by apply Hall, list_elem_of_further.
    - intros Hn. apply Hn, Hall, list_elem_of_here. }
  split; [done|]. split.
  - pose proof (length_filter_split (stored files) (title <$> files)) as Hlen.
    rewrite <- selected_length, <- not_found_eq, Hnf in Hlen.
    cbn [length] in Hlen. rewrite length_fmap in Hlen.
    change (total_selected (select_files_by_titles files (title <$> files)))
      with (length (selected_files (select_files_by_titles files (title <$> files)))).
    lia.
  - intros Hnd. rewrite selected_files_eq.
    assert (forall l : list file_info, (forall i, i ∈ l -> i ∈ files) ->
              omap (fun t => entry_of <$> title_map files !! lower t) (title <$> l)
              = entry_of <$> l) as Hgen.
    { induction l as [|i l IH]; intros Hsub; [done|].
      cbn [fmap list_fmap omap list_omap].
      rewrite (title_map_own_title files i Hnd) by (apply Hsub, list_elem_of_here).
      cbn. f_equal. apply IH. intros j Hj. by apply Hsub, list_elem_of_further. }
    by apply Hgen.
Qed.

(** X4: every stored title can be selected: requesting all of them
    reports nothing in [not_found] and selects as many entries as there
    are stored files; when the lower-cased titles are distinct the
    entries are those of the stored files, in store order. *)
Theorem all_stored_titles_are_selectable `{StrOps} (files : metadata) :
  let r := select_files_by_titles files (get_all_file_titles files) in
  not_found r = []
  /\ total_selected r = length files
  /\ (NoDup ((fun info => lower (title info)) <$> files) ->
      selected_files r = entry_of <$> files).
Proof. apply select_all_titles. Qed.

(** X5: [get_files_by_topic] returns the entries of the stored files that
    have a topic equal, up to case, to a requested topic, in store order,
    each stored file at most once; [total_matched] counts them.  Hence an
    empty request, or a store whose files list no topics, matches
    nothing. *)
Theorem topic_selection_characterised `{StrOps} (files : metadata)
    (requested : list string) :
  let r := get_files_by_topic files requested in
  (forall d, d ∈ matched_files r <->
     exists info, info ∈ files /\ shares_topic requested info
                  /\ d = entry_of info)
  /\ sublist (matched_files r) (entry_of <$> files)
  /\ total_matched r = length (matched_files r)
  /\ total_matched r <= length files
  /\ matched_files (get_files_by_topic files []) = [].
Proof.
  cbv zeta. unfold get_files_by_topic. cbn [matched_files total_matched].
  rewrite !match_loop. cbn [app].
  split.
  { intros d. rewrite list_elem_of_fmap. split.
    - intros (info & -> & Hin). apply list_elem_of_filter in Hin as [Hm Hin].
      exists info. split; [done|]. split; [|done].
      apply topic_matches_spec. by destruct (topic_matches _ _).
    - intros (info & Hin & Hs & ->). exists info. split; [done|].
      apply list_elem_of_filter. split; [|done].
      apply topic_matches_spec in Hs. by rewrite Hs. }
  split; [apply fmap_sublist, sublist_filter|].
  split; [done|].
  split; [rewrite length_fmap; apply length_filter|].
  induction files as [|info files IH]; [done|].
  rewrite filter_cons_False; [exact IH | intros []].
Qed.

End SelectFileToolMore.

Module ResponseGeneratorMore.
Import MemoryTool SelectFileTool ResponseGeneratorTool Notions.
Import ResponseGeneratorFacts.

Lemma occurs_in_extend_r (needle text back : string) :
  occurs_in needle text -> occurs_in needle (text +:+ back).
Proof.
  intros (before & after & ->). exists before, (after +:+ back).
  rewrite ?append_assoc. reflexivity.
Qed.

Lemma concat_empty_cons (x : string) (xs : list string) :
  join EmptyString (x :: xs) = x +:+ join EmptyString xs.
Proof.
  unfold join. destruct xs as [|y ys]; cbn [String.concat].
  - by rewrite append_empty_r.
  - done.
Qed.

Lemma accumulate_concat (acc : string) (cs : list (option string)) :
  accumulate acc cs = acc +:+ join EmptyString (omap id cs).
Proof.
  revert acc. induction cs as [|[t|] cs IH]; intros acc; cbn [accumulate foldl].
  - by rewrite append_empty_r.
  - fold (accumulate (if truthy t then acc +:+ t else acc) cs). rewrite IH.
    cbn [omap list_omap id]. rewrite concat_empty_cons.
    destruct t as [|c t]; cbn [truthy]; [done|]. by rewrite append_assoc.
  - fold (accumulate acc cs). by rewrite IH.
Qed.

(** The lines a subject contributes to the knowledge-level context. *)
Lemma format_subject_block (context : string) (item : string * subject_info) :
  exists rest,
    format_subject context item
    = context +:+ ("- " +:+ item.1 +:+ ": " +:+ level item.2 +:+ " 水平" +:+ nl)
        +:+ rest
    /\ rest = (if truthy (detailed_description item.2)
               then "  详情: " +:+ detailed_description item.2 +:+ nl
               else EmptyString).
Proof.
  unfold format_subject.
  destruct (truthy (detailed_description item.2)).
  - exists ("  详情: " +:+ detailed_description item.2 +:+ nl).
    split; [|reflexivity]. rewrite ?append_assoc. reflexivity.
  - exists EmptyString. split; [|reflexivity].
    rewrite ?append_assoc, ?append_empty_r. reflexivity.
Qed.

Lemma format_subjects_extend (context : string)
    (items : list (string * subject_info)) :
  exists tail, foldl format_subject context items = context +:+ tail.
Proof.
  revert context. induction items as [|item items IH]; intros context.
  - exists EmptyString. by rewrite append_empty_r.
  - cbn [foldl]. destruct (format_subject_block context item) as (rest & -> & _).
    destruct (IH (context
                   +:+ ("- " +:+ item.1 +:+ ": " +:+ level item.2 +:+ " 水平" +:+ nl)
                   +:+ rest)) as (tail & ->).
    exists ((("- " +:+ item.1 +:+ ": " +:+ level item.2 +:+ " 水平" +:+ nl)
               +:+ rest) +:+ tail).
    rewrite ?append_assoc. reflexivity.
Qed.

Lemma format_subjects_occurs (context : string)
    (items : list (string * subject_info)) (item : string * subject_info) :
  item ∈ items ->
  occurs_in
    (("- " +:+ item.1 +:+ ": " +:+ level item.2 +:+ " 水平" +:+ nl)
       +:+ (if truthy (detailed_description item.2)
            then "  详情: " +:+ detailed_description item.2 +:+ nl
            else EmptyString))
    (foldl format_subject context items).
Proof.
  revert context. induction items as [|x items IH]; intros context Hin.
  - by apply elem_of_nil in Hin.
  - cbn [foldl]. apply elem_of_cons in Hin as [->|Hin]; [|by apply IH].
    destruct (format_subject_block context x) as (rest & -> & ->).
    destruct (format_subjects_extend
                (context
                   +:+ ("- " +:+ x.1 +:+ ": " +:+ level x.2 +:+ " 水平" +:+ nl)
                   +:+ (if truthy (detailed_description x.2)
                        then "  详情: " +:+ detailed_description x.2 +:+ nl
                        else EmptyString)) items) as (tail & ->).
    exists context, tail. rewrite ?append_assoc. reflexivity.
Qed.

(** The prompt ends with the question and the closing instruction. *)
Lemma build_prompt_tail (query : string) (context_parts : list string) :
  exists front,
    _build_prompt query context_parts
    = front +:+ "用户问题: " +:+ query +:+ nl +:+ nl
        +:+ "请提供详细、准确、易懂的回答。".
Proof.
  unfold _build_prompt. destruct context_parts as [|x l].
  - exists EmptyString. cbv zeta. rewrite ?append_assoc. reflexivity.
  - exists ((EmptyString +:+ join EmptyString (x :: l))
              +:+ (nl +:+ repeat_str "-" 60 +:+ nl +:+ nl)).
    cbv zeta. rewrite ?append_assoc. reflexivity.
Qed.

Section WithClient.
Context `{Client}.

(** The prompt that is sent: the initial one, with the summaries of the
    degraded files in front of it. *)
Lemma open_stream_prompt (st : tool_state) (prompt0 : string)
    (selected : option (list file_dict)) :
  exists front, (open_stream st prompt0 selected).1.1 = front +:+ prompt0.
Proof.
  destruct selected as [files|].
  - rewrite open_stream_files. cbv zeta.
    exists (degraded_prefix files).
    destruct (omap attachment files); [|done].
    by destruct (chat_stream st _).
  - exists EmptyString. unfold open_stream. by destruct (chat_stream st _).
Qed.

(** The attachment branch does not touch the chat session. *)
Lemma open_stream_attached (st : tool_state) (prompt0 : string)
    (files : list file_dict) :
  omap attachment files <> [] ->
  (open_stream st prompt0 (Some files)).1.2 = st.
Proof.
  intros Hne. rewrite open_stream_files. cbv zeta.
  by destruct (omap attachment files).
Qed.

End WithClient.

(** X6: when the stream that the composer consumes ends normally, the
    composer returns the texts of its chunks put end to end, in order,
    chunks without text or with an empty text adding nothing; that text
    is what the history records as the assistant's turn. *)
Theorem stream_success_returns_all_chunks `{Client} (st : tool_state)
    (query : string) (knowledge : option knowledge_result)
    (selected : option (list file_dict))
    (prompt : string) (st' : tool_state) (s : stream) :
  open_stream st (initial_prompt query knowledge) selected = (prompt, st', Ok s) ->
  failure s = None ->
  generate_response_stream st query knowledge selected
  = (join EmptyString (omap id (chunks s)),
     {| chat := chat st';
        conversation_history :=
          conversation_history st'
            ++ [("user", prompt);
                ("assistant", join EmptyString (omap id (chunks s)))] |}).
Proof.
  intros Hopen Hfail. unfold generate_response_stream.
  rewrite Hopen. unfold consume. rewrite Hfail, accumulate_concat.
  reflexivity.
Qed.

Lemma stream_success_returns_all_chunks_witness :
  (@generate_response_stream Stub.chunked_client
     (@initial_state Stub.chunked_client) "q" None None).1
  = "Hello".
Proof.
  rewrite (@stream_success_returns_all_chunks Stub.chunked_client
             (@initial_state Stub.chunked_client) "q" None None
             _ _ Stub.chunked_stream eq_refl eq_refl).
  reflexivity.
Defined.

(** X7: every generation adds two entries to the tool's history, the
    prompt that was sent as the user's turn and the returned text as the
    assistant's.  They come after the earlier history, except when this
    generation created the chat session: creating it empties the history
    first.  A session that exists is kept. *)
Theorem generation_is_recorded_in_history `{Client} (st : tool_state)
    (query : string) (knowledge : option knowledge_result)
    (selected : option (list file_dict)) :
  let out := generate_response_stream st query knowledge selected in
  let prompt := (open_stream st (initial_prompt query knowledge) selected).1.1 in
  conversation_history out.2
  = match chat st, chat out.2 with
    | None, Some _ => []
    | _, _ => conversation_history st
    end ++ [("user", prompt); ("assistant", out.1)]
  /\ (is_Some (chat st) -> is_Some (chat out.2)).
Proof.
  cbv zeta. unfold generate_response_stream.
  assert (forall p,
            let o := chat_stream st p in
            conversation_history o.1
            = match chat st, chat o.1 with
              | None, Some _ => []
              | _, _ => conversation_history st
              end
            /\ (is_Some (chat st) -> is_Some (chat o.1))) as Hchat.
  { intros p. cbv zeta. unfold chat_stream, create_chat_session.
    destruct (chat st) as [c|] eqn:Hc.
    - destruct (send_message_stream c p) as [c' s']. cbn. by split; eauto.
    - destruct chats_create as [c|e].
      + destruct (send_message_stream c p) as [c' s']. cbn. by split.
      + cbn. rewrite Hc. by split. }
  destruct selected as [files|].
  - rewrite open_stream_files. cbv zeta.
    destruct (omap attachment files) as [|pt pts].
    + specialize (Hchat (degraded_prefix files +:+ initial_prompt query knowledge)).
      cbv zeta in Hchat.
      destruct (chat_stream st _) as [st1 s1]. cbn in *.
      destruct Hchat as [-> Hs]. by split.
    + cbn. split; [|done]. by destruct (chat st).
  - unfold open_stream.
    specialize (Hchat (initial_prompt query knowledge)). cbv zeta in Hchat.
    destruct (chat_stream st _) as [st1 s1]. cbn in *.
    destruct Hchat as [-> Hs]. by split.
Qed.

(** X8: after a generation that went through the chat session, a
    follow-up can be streamed: [continue_conversation] does not raise. *)
Theorem follow_up_after_chat_generation `{Client} (st : tool_state)
    (query follow_up : string) (knowledge : option knowledge_result) :
  is_Some (chat st) \/ (exists c, chats_create = Ok c) ->
  let st' := (generate_response_stream st query knowledge None).2 in
  is_Some (chat st')
  /\ exists text, (continue_conversation st' follow_up).1 = Ok text.
Proof.
  intros Hsession. cbv zeta.
  assert (is_Some (chat (generate_response_stream st query knowledge None).2))
    as [c Hc].
  { unfold generate_response_stream, open_stream, chat_stream, create_chat_session.
    destruct (chat st) as [c|] eqn:Hchat.
    - destruct (send_message_stream c _) as [c' s']. cbn. eauto.
    - destruct Hsession as [[? ?]|[c ->]]; [done|].
      destruct (send_message_stream c _) as [c' s']. cbn. eauto. }
  split; [eauto|]. unfold continue_conversation. rewrite Hc.
  destruct (send_message_stream c follow_up) as [c' s']. cbn. eauto.
Qed.

Lemma follow_up_after_chat_generation_witness :
  exists text,
    (@continue_conversation Stub.chunked_client
       (@generate_response_stream Stub.chunked_client
          (@initial_state Stub.chunked_client) "q" None None).2
       "and then?").1 = Ok text.
Proof.
  refine (proj2 (@follow_up_after_chat_generation Stub.chunked_client
                   (@initial_state Stub.chunked_client) "q" "and then?" None _)).
  right. exists 0. reflexivity.
Defined.

(** X9: a generation that attaches at least one file does not open a
    chat session; without an earlier session a follow-up then raises the
    [ValueError] of [continue_conversation], although
    [generate_response_stream] has been called. *)
Theorem follow_up_after_attachment_raises `{Client} (st : tool_state)
    (query follow_up : string) (knowledge : option knowledge_result)
    (files : list file_dict) :
  chat st = None ->
  omap attachment files <> [] ->
  let st' := (generate_response_stream st query knowledge (Some files)).2 in
  chat st' = None
  /\ (continue_conversation st' follow_up).1
     = Raise "没有活动的聊天会话，请先调用 generate_response_stream".
Proof.
  intros Hchat Hne. cbv zeta.
  assert (chat (generate_response_stream st query knowledge (Some files)).2 = None)
    as Hnone.
  { unfold generate_response_stream.
    pose proof (open_stream_attached st (initial_prompt query knowledge) files Hne)
      as Hst.
    destruct (open_stream st _ _) as [[p st1] o]. cbn in Hst. subst st1.
    done. }
  split; [done|]. unfold continue_conversation. by rewrite Hnone.
Qed.

Lemma follow_up_after_attachment_raises_witness :
  (@continue_conversation Stub.two_of_three_client
     (@generate_response_stream Stub.two_of_three_client
        (@initial_state Stub.two_of_three_client) "q" None
        (Some [Stub.selected "one"; Stub.selected "two"])).2
     "and then?").1
  = Raise "没有活动的聊天会话，请先调用 generate_response_stream".
Proof.
  refine (proj2 (@follow_up_after_attachment_raises Stub.two_of_three_client
                   (@initial_state Stub.two_of_three_client) "q" "and then?" None
                   [Stub.selected "one"; Stub.selected "two"] eq_refl _)).
  vm_compute. discriminate.
Defined.

(** X10: whatever the knowledge level and the selected files, the prompt
    that is sent ends with the user's question and the closing
    instruction. *)
Theorem prompt_ends_with_question `{Client} (st : tool_state)
    (query : string) (knowledge : option knowledge_result)
    (selected : option (list file_dict)) :
  exists front,
    (open_stream st (initial_prompt query knowledge) selected).1.1
    = front +:+ "用户问题: " +:+ query +:+ nl +:+ nl
        +:+ "请提供详细、准确、易懂的回答。".
Proof.
  destruct (open_stream_prompt st (initial_prompt query knowledge) selected)
    as (front & ->).
  destruct (build_prompt_tail query
              match knowledge with
              | Some info => [_format_knowledge_level_context info]
              | None => []
              end) as (mid & Hmid).
  exists (front +:+ mid). unfold initial_prompt. rewrite Hmid.
  rewrite ?append_assoc. reflexivity.
Qed.

(** X11: the knowledge-level context names every subject of the lookup
    result with its level, followed by its description when there is
    one; the context is part of the initial prompt. *)
Theorem knowledge_context_lists_every_subject (info : knowledge_result)
    (query : string) (subject : string) (record : subject_info) :
  (subject, record) ∈ subjects_info info ->
  occurs_in
    (("- " +:+ subject +:+ ": " +:+ level record +:+ " 水平" +:+ nl)
       +:+ (if truthy (detailed_description record)
            then "  详情: " +:+ detailed_description record +:+ nl
            else EmptyString))
    (initial_prompt query (Some info)).
Proof.
  intros Hin.
  pose proof (format_subjects_occurs (nl +:+ "【用户知识水平背景】" +:+ nl)
                (subjects_info info) (subject, record) Hin) as (b & a & Heq).
  cbn [fst snd] in Heq.
  unfold initial_prompt, _build_prompt. cbv zeta.
  do 3 apply occurs_in_extend_r.
  change (EmptyString +:+ join EmptyString [_format_knowledge_level_context info])
    with (_format_knowledge_level_context info).
  unfold _format_knowledge_level_context. cbv zeta.
  apply occurs_in_extend_r. exists b, a. exact Heq.
Qed.

Lemma knowledge_context_lists_every_subject_witness :
  occurs_in "- astronomy: beginner 水平"
    (initial_prompt "q"
       (Some (get_knowledge_level Stub.sample_memory ["astronomy"]))).
Proof.
  destruct (knowledge_context_lists_every_subject
              (get_knowledge_level Stub.sample_memory ["astronomy"]) "q"
              "astronomy"
              {| level := "beginner"; detailed_description := "basic concepts" |})
    as (b & a & Heq).
  - apply list_elem_of_singleton. reflexivity.
  - exists b, (nl +:+ "  详情: basic concepts" +:+ nl +:+ a).
    rewrite Heq. vm_compute. reflexivity.
Defined.

End ResponseGeneratorMore.

Module LoopMore.
Import MemoryTool SelectFileTool ResponseGeneratorTool Director Notions.
Import DirectorFacts LoopFacts.

Section WithServices.
Context `{StrOps} `{Client}.
Variable memory : memory_data.
Variable files : metadata.

(** A call to a tool other than the terminal one returns its
    [tool_output] and leaves the response generator as it was. *)
Lemma execute_nonterminal (g : tool_state) (fc : function_call)
    (query : string) (k : option knowledge_result) (f : option selection) :
  nonterminal fc ->
  execute_function memory files g fc query k f
  = (tool_output memory files fc, g).
Proof.
  intros Hnt. unfold execute_function, tool_output.
  name_cases fc; done.
Qed.

Lemma last_filter_cons {A : Type} (P : A -> Prop) `{!forall x, Decision (P x)}
    (x : A) (l : list A) :
  list.last (filter P (x :: l))
  = match list.last (filter P l) with
    | Some y => Some y
    | None => if decide (P x) then Some x else None
    end.
Proof.
  destruct (decide (P x)) as [Hx|Hx].
  - rewrite filter_cons_True by done.
    destruct (filter P l) as [|y l'] eqn:E; [done|].
    rewrite last_cons. by destruct (list.last (y :: l')).
  - rewrite filter_cons_False by done. by destruct (list.last (filter P l)).
Qed.

Lemma knowledge_after_cons (fc : function_call) (calls : list function_call)
    (before : option knowledge_result) :
  knowledge_after memory (fc :: calls) before
  = knowledge_after memory calls
      (if String.eqb (name fc) "get_knowledge_level"
       then Some (get_knowledge_level memory (default [] (subjects (args fc))))
       else before).
Proof.
  unfold knowledge_after. rewrite last_filter_cons.
  destruct (list.last (filter _ calls)); [done|].
  destruct (String.eqb_spec (name fc) "get_knowledge_level");
    [by rewrite decide_True | by rewrite decide_False].
Qed.

Lemma selection_after_cons (fc : function_call) (calls : list function_call)
    (before : option selection) :
  selection_after files (fc :: calls) before
  = selection_after files calls
      (if String.eqb (name fc) "select_relevant_files"
       then Some (select_files_by_titles files
                    (default [] (file_titles (args fc))))
       else before).
Proof.
  unfold selection_after. rewrite last_filter_cons.
  destruct (list.last (filter _ calls)); [done|].
  destruct (String.eqb_spec (name fc) "select_relevant_files");
    [by rewrite decide_True | by rewrite decide_False].
Qed.

(** The state and the function responses after a batch without the
    terminal call. *)
Lemma run_batch_nonterminal (calls : list function_call) :
  Forall nonterminal calls ->
  forall (query : string) (v : vars) (frs : list part),
  run_batch memory files calls query v frs
  = ({| knowledge_level_result :=
          knowledge_after memory calls (knowledge_level_result v);
        selected_files_result :=
          selection_after files calls (selected_files_result v);
        gen := gen v;
        executed :=
          executed v ++ ((fun fc => (fc, tool_output memory files fc)) <$> calls) |},
     Collected
       (frs ++ ((fun fc =>
                   Part_from_function_response (name fc)
                     (tool_output memory files fc)) <$> calls))).
Proof.
  induction 1 as [|fc calls Hfc _ IH]; intros query v frs.
  - cbn. rewrite !app_nil_r. by destruct v.
  - cbn [run_batch]. unfold call.
    rewrite (execute_nonterminal _ _ _ _ _ Hfc).
    rewrite knowledge_after_cons, selection_after_cons, !fmap_cons.
    pose proof (eq_refl (tool_output memory files fc)) as Hout.
    unfold tool_output at 2 in Hout.
    unfold nonterminal in Hfc.
    destruct (String.eqb_spec (name fc) "get_knowledge_level") as [Hk|Hk].
    + destruct (String.eqb_spec (name fc) "select_relevant_files") as [Hs|Hs];
        [congruence|].
      rewrite IH. unfold set_knowledge.
      cbn [knowledge_level_result selected_files_result gen executed].
      rewrite Hout, <- !app_assoc. reflexivity.
    + destruct (String.eqb_spec (name fc) "select_relevant_files") as [Hs|Hs].
      * rewrite IH. unfold set_selection.
        cbn [knowledge_level_result selected_files_result gen executed].
        rewrite Hout, <- !app_assoc. reflexivity.
      * destruct (String.eqb_spec (name fc) "generate_detailed_response");
          [done|].
        rewrite IH.
        cbn [knowledge_level_result selected_files_result gen executed].
        rewrite <- !app_assoc. reflexivity.
Qed.

(** A batch that starts with calls other than the terminal one goes on,
    after them, from the state they leave. *)
Lemma run_batch_app (before rest : list function_call) :
  Forall nonterminal before ->
  forall (query : string) (v : vars) (frs : list part),
  run_batch memory files (before ++ rest) query v frs
  = run_batch memory files rest query
      {| knowledge_level_result :=
           knowledge_after memory before (knowledge_level_result v);
         selected_files_result :=
           selection_after files before (selected_files_result v);
         gen := gen v;
         executed :=
           executed v
             ++ ((fun fc => (fc, tool_output memory files fc)) <$> before) |}
      (frs ++ ((fun fc =>
                  Part_from_function_response (name fc)
                    (tool_output memory files fc)) <$> before)).
Proof.
  induction 1 as [|fc before Hfc _ IH]; intros query v frs.
  - cbn. rewrite !app_nil_r. by destruct v.
  - cbn [app run_batch]. unfold call.
    rewrite (execute_nonterminal _ _ _ _ _ Hfc).
    rewrite knowledge_after_cons, selection_after_cons, !fmap_cons.
    pose proof (eq_refl (tool_output memory files fc)) as Hout.
    unfold tool_output at 2 in Hout.
    unfold nonterminal in Hfc.
    destruct (String.eqb_spec (name fc) "get_knowledge_level") as [Hk|Hk].
    + destruct (String.eqb_spec (name fc) "select_relevant_files") as [Hs|Hs];
        [congruence|].
      rewrite IH. unfold set_knowledge.
      cbn [knowledge_level_result selected_files_result gen executed].
      rewrite Hout, <- !app_assoc. reflexivity.
    + destruct (String.eqb_spec (name fc) "select_relevant_files") as [Hs|Hs].
      * rewrite IH. unfold set_selection.
        cbn [knowledge_level_result selected_files_result gen executed].
        rewrite Hout, <- !app_assoc. reflexivity.
      * destruct (String.eqb_spec (name fc) "generate_detailed_response");
          [done|].
        rewrite IH.
        cbn [knowledge_level_result selected_files_result gen executed].
        rewrite <- !app_assoc. reflexivity.
Qed.

End WithServices.

(** X12: a batch without the terminal call is answered call by call, in
    arrival order: the function responses sent back are one per call,
    each under the call's name with what the tool returned ([None] for a
    name that is not registered).  No answer is generated: the response
    generator is left as it was. *)
Theorem nonterminal_batch_is_answered_in_order `{StrOps} `{Client}
    (memory : memory_data) (files : metadata)
    (calls : list function_call) (query : string) (v : vars)
    (frs : list part) :
  Forall nonterminal calls ->
  let out := run_batch memory files calls query v frs in
  out.2 = Collected
            (frs ++ ((fun fc =>
                        Part_from_function_response (name fc)
                          (tool_output memory files fc)) <$> calls))
  /\ executed out.1
     = executed v ++ ((fun fc => (fc, tool_output memory files fc)) <$> calls)
  /\ gen out.1 = gen v.
Proof.
  intros Hnt. cbv zeta. by rewrite (run_batch_nonterminal memory files calls Hnt).
Qed.

Lemma nonterminal_batch_is_answered_in_order_witness :
  (@run_batch Stub.ascii_ops Stub.looping_client Stub.sample_memory
     [Stub.known_pdf]
     [Stub.select_call ["known.pdf"]; Stub.unknown_call] "q"
     (@initial_vars Stub.looping_client (@initial_state Stub.looping_client))
     []).2
  = Collected
      [Part_from_function_response "select_relevant_files"
         (Some (Selection
                  (@select_files_by_titles Stub.ascii_ops [Stub.known_pdf]
                     ["known.pdf"])));
       Part_from_function_response "search_the_web" None].
Proof.
  refine (proj1 (@nonterminal_batch_is_answered_in_order
                   Stub.ascii_ops Stub.looping_client Stub.sample_memory
                   [Stub.known_pdf]
                   [Stub.select_call ["known.pdf"]; Stub.unknown_call] "q"
                   (@initial_vars Stub.looping_client
                      (@initial_state Stub.looping_client)) [] _)).
  repeat constructor; discriminate.
Defined.

(** X13: within a batch, and from batch to batch, a later result of a
    tool replaces an earlier one: after a batch without the terminal call
    the session holds the knowledge level of the last lookup of the batch
    and the selection of its last document selection, and what it held
    before for a tool the batch does not call. *)
Theorem last_result_of_a_tool_wins `{StrOps} `{Client}
    (memory : memory_data) (files : metadata)
    (calls : list function_call) (query : string) (v : vars)
    (frs : list part) :
  Forall nonterminal calls ->
  let out := run_batch memory files calls query v frs in
  knowledge_level_result out.1
  = match list.last
            (filter (fun fc => name fc = "get_knowledge_level") calls) with
    | Some fc =>
        Some (get_knowledge_level memory (default [] (subjects (args fc))))
    | None => knowledge_level_result v
    end
  /\ selected_files_result out.1
     = match list.last
               (filter (fun fc => name fc = "select_relevant_files") calls) with
       | Some fc =>
           Some (select_files_by_titles files
                   (default [] (file_titles (args fc))))
       | None => selected_files_result v
       end.
Proof.
  intros Hnt. cbv zeta. by rewrite (run_batch_nonterminal memory files calls Hnt).
Qed.

Lemma last_result_of_a_tool_wins_witness :
  knowledge_level_result
    (@run_batch Stub.ascii_ops Stub.looping_client Stub.sample_memory
       [Stub.known_pdf]
       [Stub.knowledge_call ["astronomy"]; Stub.knowledge_call ["algebra"]] "q"
       (@initial_vars Stub.looping_client (@initial_state Stub.looping_client))
       []).1
  = Some (get_knowledge_level Stub.sample_memory ["algebra"]).
Proof.
  refine (proj1 (@last_result_of_a_tool_wins
                   Stub.ascii_ops Stub.looping_client Stub.sample_memory
                   [Stub.known_pdf]
                   [Stub.knowledge_call ["astronomy"];
                    Stub.knowledge_call ["algebra"]] "q"
                   (@initial_vars Stub.looping_client
                      (@initial_state Stub.looping_client)) [] _)).
  repeat constructor; discriminate.
Defined.

(** X14: the terminal call of a batch sees the results of the calls that
    precede it in the same batch: it is executed with the knowledge level
    and the selection that those calls leave, and the batch ends with its
    result. *)
Theorem terminal_call_sees_earlier_results `{StrOps} `{Client}
    (memory : memory_data) (files : metadata)
    (before after : list function_call) (fc : function_call)
    (query : string) (v : vars) (frs : list part) :
  Forall nonterminal before ->
  name fc = "generate_detailed_response" ->
  let knowledge := knowledge_after memory before (knowledge_level_result v) in
  let selection := selection_after files before (selected_files_result v) in
  let result :=
    execute_function memory files (gen v) fc query knowledge selection in
  run_batch memory files (before ++ fc :: after) query v frs
  = ({| knowledge_level_result := knowledge;
        selected_files_result := selection;
        gen := result.2;
        executed :=
          (executed v
             ++ ((fun c => (c, tool_output memory files c)) <$> before))
            ++ [(fc, result.1)] |},
     AtTerminal result.1).
Proof.
  intros Hbefore Hname. cbv zeta.
  rewrite (run_batch_app memory files before (fc :: after) Hbefore).
  cbn [run_batch]. unfold call.
  cbn [knowledge_level_result selected_files_result gen executed].
  destruct (execute_function memory files (gen v) fc query _ _) as [r g].
  rewrite Hname. reflexivity.
Qed.

Lemma terminal_call_sees_earlier_results_witness :
  exists v,
    (@run_batch Stub.ascii_ops Stub.looping_client Stub.sample_memory
       [Stub.known_pdf] Stub.lookup_twice_then_answer "q"
       (@initial_vars Stub.looping_client (@initial_state Stub.looping_client))
       [])
    = (v, AtTerminal
            (@execute_function Stub.ascii_ops Stub.looping_client
               Stub.sample_memory [Stub.known_pdf]
               (@initial_state Stub.looping_client)
               (Stub.terminal_call (Some "the sun") (Some true) None) "q"
               (Some (get_knowledge_level Stub.sample_memory ["algebra"]))
               None).1).
Proof.
  eexists.
  refine (@terminal_call_sees_earlier_results
            Stub.ascii_ops Stub.looping_client Stub.sample_memory
            [Stub.known_pdf]
            [Stub.knowledge_call ["astronomy"]; Stub.knowledge_call ["algebra"]]
            [] (Stub.terminal_call (Some "the sun") (Some true) None) "q"
            (@initial_vars Stub.looping_client
               (@initial_state Stub.looping_client)) [] _ eq_refl).
  repeat constructor; discriminate.
Defined.

(** X15: the two flags of the terminal payload repeat what the call
    asked for, not what was used: on a session that holds no knowledge
    level and no selection the composer receives neither, whatever the
    flags, and the payload still reports the flags as requested. *)
Theorem used_flags_repeat_the_request `{StrOps} `{Client}
    (memory : memory_data) (files : metadata) (g : tool_state)
    (fc : function_call) (query : string) :
  name fc = "generate_detailed_response" ->
  let composed :=
    generate_response_stream g (default query (user_query (args fc)))
      None None in
  execute_function memory files g fc query None None
  = (Some (DetailedResponse
             {| response := composed.1;
                used_knowledge_level :=
                  default false (use_knowledge_level (args fc));
                used_files := default false (use_selected_files (args fc));
                response_length := py_len composed.1 |}),
     composed.2).
Proof.
  intros Hname. cbv zeta. unfold execute_function. rewrite Hname.
  change ("generate_detailed_response" =? "get_knowledge_level")%string
    with false.
  change ("generate_detailed_response" =? "select_relevant_files")%string
    with false.
  change ("generate_detailed_response" =? "generate_detailed_response")%string
    with true.
  cbv iota.
  destruct (default false (use_knowledge_level (args fc)));
    destruct (default false (use_selected_files (args fc)));
    by destruct (generate_response_stream _ _ _ _).
Qed.

Lemma used_flags_repeat_the_request_witness :
  (@execute_function Stub.ascii_ops Stub.looping_client
     Stub.sample_memory [Stub.known_pdf]
     (@initial_state Stub.looping_client)
     (Stub.terminal_call None (Some true) (Some true)) "q" None None).1
  = Some (DetailedResponse
            {| response := "answer"; used_knowledge_level := true;
               used_files := true; response_length := 6 |}).
Proof.
  rewrite (@used_flags_repeat_the_request Stub.ascii_ops Stub.looping_client
             Stub.sample_memory [Stub.known_pdf]
             (@initial_state Stub.looping_client)
             (Stub.terminal_call None (Some true) (Some true)) "q" eq_refl).
  vm_compute. reflexivity.
Defined.

End LoopMore.

Module RunMore.
Import MemoryTool SelectFileTool ResponseGeneratorTool Director Notions.
Import DirectorFacts LoopFacts LoopMore.

Section WithServices.
Context `{StrOps} `{Client}.
Variable memory : memory_data.
Variable files : metadata.

(** A batch without the terminal call leaves the final response of
    [process_query_for_gradio] as it was and adds one step per call. *)
Lemma gradio_batch_nonterminal (calls : list function_call) :
  Forall nonterminal calls ->
  forall (query : string) (st : App.gradio_state) (frs : list part),
  let out := (App.gradio_batch memory files calls query st frs).1 in
  App.final_response out = App.final_response st
  /\ App.g_iteration out = App.g_iteration st
  /\ App.g_decisions out = App.g_decisions st.
Proof.
  induction 1 as [|fc calls Hfc _ IH]; intros query st frs; [done|].
  cbn [App.gradio_batch].
  destruct (call memory files (App.g_vars st) fc query) as [result v].
  assert ((App.record_result fc result st v).1.2 = App.final_response st) as Hrec.
  { unfold App.record_result. unfold nonterminal in Hfc. name_cases fc; done. }
  destruct (App.record_result fc result st v) as [[v' final] lines].
  cbn in Hrec. subst final.
  cbv zeta.
  match goal with
  | |- context [App.gradio_batch memory files calls query ?s ?f] =>
      specialize (IH query s f)
  end.
  cbv zeta in IH. exact IH.
Qed.

Lemma gradio_batch_steps (calls : list function_call) (query : string)
    (st : App.gradio_state) (frs : list part) :
  App.step_number (App.gradio_batch memory files calls query st frs).1
  = App.step_number st + length calls.
Proof.
  revert st frs. induction calls as [|fc calls IH]; intros st frs.
  - cbn. lia.
  - cbn [App.gradio_batch].
    destruct (call memory files (App.g_vars st) fc query) as [result v].
    destruct (App.record_result fc result st v) as [[v' final] lines].
    rewrite IH. cbn. lia.
Qed.

Lemma any_terminal_false (calls : list function_call) :
  Forall nonterminal calls -> App.any_terminal calls = false.
Proof.
  induction 1 as [|fc calls Hfc _ IH]; [done|].
  unfold App.any_terminal in *. cbn [existsb]. rewrite IH.
  unfold nonterminal in Hfc.
  by destruct (String.eqb_spec (name fc) "generate_detailed_response").
Qed.

Lemma gradio_loop_runs_out (k : nat) :
  always_calls_tools ->
  forall (query : string) (st : App.gradio_state),
  exists st',
    App.gradio_loop memory files k query st
    = (App.PathLog (App.function_call_log st'), App.final_response st, st')
    /\ App.g_iteration st' = App.g_iteration st + k
    /\ App.g_decisions st' = App.g_decisions st + k.
Proof.
  intros [_ Hgen]. induction k as [|k IH]; intros query st.
  - exists st. cbn. unfold App.gradio_finish. repeat split; lia.
  - cbn [App.gradio_loop].
    destruct (Hgen (App.g_history (App.gradio_tick st)))
      as (r & -> & calls & -> & Hne & Hnt).
    destruct calls as [|fc calls]; [done|].
    pose proof (gradio_batch_nonterminal (fc :: calls) Hnt query
                  (App.gradio_asked (App.gradio_tick st)
                     (App.g_history (App.gradio_tick st) ++ first_content r)
                     (App.final_response (App.gradio_tick st))) [])
      as Hb. cbv zeta in Hb.
    destruct (App.gradio_batch memory files (fc :: calls) query _ [])
      as [st1 frs1]. cbn [fst] in Hb. destruct Hb as (Hf & Hi & Hd).
    rewrite (any_terminal_false _ Hnt).
    destruct (IH query
                (App.gradio_asked st1
                   (App.g_history st1 ++ [user_content frs1])
                   (App.final_response st1))) as (st' & -> & Hi' & Hd').
    exists st'. cbn in *. rewrite Hf. split; [done|]. split; lia.
Qed.

(** The step number is one more than the number of calls made. *)
Lemma gradio_loop_steps (k : nat) (query : string) (st : App.gradio_state) :
  App.step_number st = S (length (calls_made (App.g_vars st))) ->
  let st' := (App.gradio_loop memory files k query st).2 in
  App.step_number st' = S (length (calls_made (App.g_vars st'))).
Proof.
  revert st. induction k as [|k IH]; intros st Hst; cbv zeta; [done|].
  cbn [App.gradio_loop].
  destruct (generate_content _) as [r|e]; [|done].
  destruct (extract_function_calls r) as [[|fc calls]|e]; [| |done].
  - cbn. destruct (response_text r) as [t|]; [|done]. by destruct (truthy t).
  - pose proof (gradio_batch_steps (fc :: calls) query
                  (App.gradio_asked (App.gradio_tick st)
                     (App.g_history (App.gradio_tick st) ++ first_content r)
                     (App.final_response (App.gradio_tick st))) []) as Hs.
    pose proof (gradio_batch_makes_every_call memory files (fc :: calls) query
                  (App.gradio_asked (App.gradio_tick st)
                     (App.g_history (App.gradio_tick st) ++ first_content r)
                     (App.final_response (App.gradio_tick st))) []) as Hm.
    destruct (App.gradio_batch memory files (fc :: calls) query _ [])
      as [st1 frs1]. cbn [fst] in Hs, Hm.
    assert (App.step_number st1 = S (length (calls_made (App.g_vars st1))))
      as Hst1.
    { rewrite Hs, Hm, length_app. cbn in *. lia. }
    destruct (App.any_terminal (fc :: calls)); [done|].
    apply (IH (App.gradio_asked st1 _ _)). exact Hst1.
Qed.

Lemma main_loop_decisions (k : nat) (query : string) (s : session)
    (resp : generate_response) :
  decisions s <= decisions (Main.loop memory files k query s resp).2.
Proof.
  revert s resp. induction k as [|k IH]; intros s resp; cbn [Main.loop]; [done|].
  destruct (extract_function_calls resp) as [[|fc calls]|e]; [done| |done].
  destruct (run_batch memory files (fc :: calls) query (s_vars (tick s)) [])
    as [v [result|frs]]; [done|].
  pose proof (next_decision_counts (with_vars (tick s) v) resp frs)
    as (_ & Hd & _).
  destruct (next_decision _ _ _) as [s' [r|e]]; cbn in Hd; [|cbn; lia].
  specialize (IH s' r). cbn in *. lia.
Qed.

End WithServices.

(** X16: when the first request to the decision engine raises,
    [process_query] of main.py lets the exception through, while
    [process_query_with_chat] returns the text "❌ 处理过程中出现错误: "
    followed by the exception and [process_query_for_gradio] returns
    that text as its path and an empty answer; no tool is called. *)
Theorem unreachable_engine_is_reported `{StrOps} `{Client}
    (memory : memory_data) (files : metadata) (g : tool_state)
    (query : string) (e : exn) :
  generate_content [user_content [Part_text query]] = Raise e ->
  is_blank query = false ->
  let main := Main.process_query memory files g query None in
  let app := App.process_query_with_chat memory files g query None in
  let gradio := App.process_query_for_gradio memory files g query in
  main.1 = Main.Uncaught e
  /\ app.1 = "❌ 处理过程中出现错误: " +:+ e
  /\ gradio.1 = (App.PathError ("❌ 处理过程中出现错误: " +:+ e), EmptyString)
  /\ executed (s_vars main.2) = []
  /\ executed (s_vars app.2) = []
  /\ executed (App.g_vars gradio.2) = [].
Proof.
  intros Hfail Hblank. cbv zeta.
  unfold Main.process_query, App.process_query_with_chat,
    App.process_query_for_gradio, first_decision.
  rewrite Hblank, Hfail. cbn [fst snd].
  change max_iterations with 10. cbn [App.gradio_loop].
  change (App.g_history (App.gradio_tick (App.gradio_initial g query)))
    with [user_content [Part_text query]].
  rewrite Hfail. done.
Qed.

Lemma unreachable_engine_is_reported_witness :
  (@App.process_query_with_chat Stub.ascii_ops Stub.unreachable_client
     Stub.sample_memory [Stub.known_pdf]
     (@initial_state Stub.unreachable_client) "hello" None).1
  = "❌ 处理过程中出现错误: connection refused".
Proof.
  refine (proj1 (proj2 (@unreachable_engine_is_reported
                          Stub.ascii_ops Stub.unreachable_client
                          Stub.sample_memory [Stub.known_pdf]
                          (@initial_state Stub.unreachable_client) "hello"
                          "connection refused" eq_refl eq_refl))).
Defined.

(** X17: a blank query never reaches the decision engine through
    [process_query_with_chat] or [process_query_for_gradio]: both return
    the fixed text "⚠️ 请输入有效的问题" at once.  [process_query] of
    main.py has no such guard and sends the query. *)
Theorem blank_query_is_turned_away `{StrOps} `{Client}
    (memory : memory_data) (files : metadata) (g : tool_state)
    (query : string) (chat : option chat_session) :
  is_blank query = true ->
  let app := App.process_query_with_chat memory files g query chat in
  let gradio := App.process_query_for_gradio memory files g query in
  let main := Main.process_query memory files g query chat in
  app.1 = "⚠️ 请输入有效的问题"
  /\ decisions app.2 = 0
  /\ s_chat app.2 = chat
  /\ gradio.1 = (App.PathError "⚠️ 请输入有效的问题", EmptyString)
  /\ App.g_decisions gradio.2 = 0
  /\ 1 <= decisions main.2.
Proof.
  intros Hblank. cbv zeta.
  unfold App.process_query_with_chat, App.process_query_for_gradio.
  rewrite Hblank. do 5 (split; [reflexivity|]).
  unfold Main.process_query.
  pose proof (first_decision_counts g chat query) as (_ & Hd & _).
  destruct (first_decision g chat query) as [s [r|e]]; cbn in Hd; [|cbn; lia].
  pose proof (main_loop_decisions memory files max_iterations query s r). lia.
Qed.

Lemma blank_query_is_turned_away_witness :
  (@App.process_query_with_chat Stub.ascii_ops Stub.looping_client
     Stub.sample_memory [Stub.known_pdf]
     (@initial_state Stub.looping_client) "   " None).1
  = "⚠️ 请输入有效的问题".
Proof.
  refine (proj1 (@blank_query_is_turned_away
                   Stub.ascii_ops Stub.looping_client
                   Stub.sample_memory [Stub.known_pdf]
                   (@initial_state Stub.looping_client) "   " None eq_refl)).
Defined.

(** X18: against a decision engine that always asks for non-terminal
    tool calls, [process_query_for_gradio] stops after exactly 10 passes
    and 10 requests and returns its log with an empty answer: unlike the
    two other loops it gives no iteration-limit warning. *)
Theorem gradio_limit_gives_empty_answer `{StrOps} `{Client}
    (memory : memory_data) (files : metadata) (g : tool_state)
    (query : string) :
  always_calls_tools ->
  is_blank query = false ->
  let out := App.process_query_for_gradio memory files g query in
  out.1 = (App.PathLog (App.function_call_log out.2), EmptyString)
  /\ App.g_iteration out.2 = max_iterations
  /\ App.g_decisions out.2 = max_iterations.
Proof.
  intros Halways Hblank. cbv zeta. unfold App.process_query_for_gradio.
  rewrite Hblank.
  destruct (gradio_loop_runs_out memory files max_iterations Halways query
              (App.gradio_initial g query)) as (st' & -> & Hi & Hd).
  cbn in *. split; [done|]. split; lia.
Qed.

Lemma gradio_limit_gives_empty_answer_witness :
  let out :=
    @App.process_query_for_gradio Stub.ascii_ops Stub.looping_client
      Stub.sample_memory [Stub.known_pdf]
      (@initial_state Stub.looping_client) "what did I learn?" in
  out.1.2 = EmptyString /\ App.g_iteration out.2 = 10.
Proof.
  assert (@always_calls_tools Stub.looping_client) as Halways.
  { assert (tool_batch
              (Stub.calls_response [Stub.knowledge_call ["astronomy"]])) as Hb.
    { exists [Stub.knowledge_call ["astronomy"]].
      split; [reflexivity|]. split; [discriminate|].
      constructor; [discriminate | constructor]. }
    split; intros; eexists; split; try exact Hb; reflexivity. }
  destruct (@gradio_limit_gives_empty_answer Stub.ascii_ops Stub.looping_client
              Stub.sample_memory [Stub.known_pdf]
              (@initial_state Stub.looping_client) "what did I learn?"
              Halways eq_refl) as (Hout & Hi & _).
  cbv zeta. rewrite Hout. exact (conj eq_refl Hi).
Defined.



End RunMore.

Module HandlersMore.
Import MemoryTool SelectFileTool ResponseGeneratorTool Director Notions.
Import LoopFacts.

Section WithServices.
Context `{StrOps} `{Client}.
Variable memory : memory_data.
Variable files : metadata.

Lemma next_decision_keeps_chat (s : session) (resp : generate_response)
    (frs : list part) :
  is_Some (s_chat s) -> is_Some (s_chat (next_decision s resp frs).1).
Proof.
  intros [c Hc]. unfold next_decision. rewrite Hc.
  destruct (send_message c _). cbn. eauto.
Qed.

(** A query that starts with a chat session ends with one. *)
Lemma chat_loop_keeps_chat (k : nat) (query : string) (s : session)
    (resp : generate_response) :
  is_Some (s_chat s) ->
  is_Some (s_chat (App.chat_loop memory files k query s resp).2).
Proof.
  revert s resp. induction k as [|k IH]; intros s resp Hs; cbn [App.chat_loop];
    [done|].
  destruct (extract_function_calls resp) as [[|fc calls]|e]; [done| |done].
  destruct (run_batch memory files (fc :: calls) query (s_vars (tick s)) [])
    as [v [result|frs]]; [done|].
  pose proof (next_decision_keeps_chat (with_vars (tick s) v) resp frs Hs) as Hn.
  destruct (next_decision _ _ _) as [s' [r|e]]; cbn in Hn; [|done].
  by apply IH.
Qed.

Lemma process_keeps_chat (g : tool_state) (query : string) (c : chat_session) :
  is_Some (s_chat (App.process_query_with_chat memory files g query (Some c)).2).
Proof.
  unfold App.process_query_with_chat.
  destruct (is_blank query); [cbn; eauto|].
  unfold first_decision. destruct (send_message c _) as [c' [r|e]]; [|cbn; eauto].
  apply chat_loop_keeps_chat. cbn. eauto.
Qed.

End WithServices.

(** [respond] on a message that is not blank. *)
Lemma respond_nonblank `{StrOps} `{App.DecisionChats}
    (memory : memory_data) (files : metadata) (g : tool_state)
    (message : string) (history : App.chat_history)
    (chat : option chat_session) (c : chat_session) :
  is_blank message = false ->
  App.get_or_create_chat chat = Ok c ->
  let answered :=
    App.process_query_with_chat memory files g message (Some c) in
  App.respond memory files g message history chat
  = (Ok (Some (default [] history ++ [(message, answered.1)]), EmptyString,
         s_chat answered.2),
     gen (s_vars answered.2))
  /\ is_Some (s_chat answered.2).
Proof.
  intros Hblank Hchat. cbv zeta. split.
  - unfold App.respond. rewrite Hblank, Hchat.
    by destruct (App.process_query_with_chat memory files g message (Some c)).
  - apply process_keeps_chat.
Qed.

(** X21: for a message that is not blank, [respond] adds exactly one
    exchange to the history, the message with the answer of
    [process_query_with_chat], clears the text box, and hands back a chat
    session (the one given, or a new one), never [None]; a missing
    history counts as empty. *)
Theorem respond_records_one_exchange `{StrOps} `{App.DecisionChats}
    (memory : memory_data) (files : metadata) (g : tool_state)
    (message : string) (history : App.chat_history)
    (chat : option chat_session) (c : chat_session) :
  is_blank message = false ->
  App.get_or_create_chat chat = Ok c ->
  let answered :=
    App.process_query_with_chat memory files g message (Some c) in
  App.respond memory files g message history chat
  = (Ok (Some (default [] history ++ [(message, answered.1)]), EmptyString,
         s_chat answered.2),
     gen (s_vars answered.2))
  /\ is_Some (s_chat answered.2).
Proof. apply respond_nonblank. Qed.

Lemma respond_records_one_exchange_witness :
  (@App.respond Stub.ascii_ops Stub.greeting_client Stub.greeting_chats
     Stub.sample_memory [Stub.known_pdf]
     (@initial_state Stub.greeting_client) "hi" None None).1
  = Ok (Some [("hi", "hello")], EmptyString, Some 1).
Proof.
  rewrite (proj1 (@respond_records_one_exchange
                    Stub.ascii_ops Stub.greeting_client Stub.greeting_chats
                    Stub.sample_memory [Stub.known_pdf]
                    (@initial_state Stub.greeting_client) "hi" None None 0
                    eq_refl eq_refl)).
  vm_compute. reflexivity.
Defined.

(** X22: [retry_last] drops the last exchange of the history and sends
    its message again: the result is that of [respond] on the shorter
    history, so the history keeps its length and its last message.  If
    that message is blank nothing is sent and the exchange is lost.  On a
    missing or empty history [retry_last] changes nothing. *)
Theorem retry_replaces_the_last_exchange `{StrOps} `{App.DecisionChats}
    (memory : memory_data) (files : metadata) (g : tool_state)
    (earlier : list (string * string)) (message answer : string)
    (chat : option chat_session) :
  let history := Some (earlier ++ [(message, answer)]) in
  App.retry_last memory files g history chat
  = App.respond memory files g message (Some earlier) chat
  /\ (is_blank message = true ->
      App.retry_last memory files g history chat
      = (Ok (Some earlier, EmptyString, chat), g))
  /\ (is_blank message = false ->
      forall c, App.get_or_create_chat chat = Ok c ->
      exists answer' chat' g',
        App.retry_last memory files g history chat
        = (Ok (Some (earlier ++ [(message, answer')]), EmptyString, Some chat'),
           g'))
  /\ App.retry_last memory files g None chat = (Ok (None, EmptyString, chat), g)
  /\ App.retry_last memory files g (Some []) chat
     = (Ok (Some [], EmptyString, chat), g).
Proof.
  cbv zeta.
  assert (App.retry_last memory files g (Some (earlier ++ [(message, answer)])) chat
          = App.respond memory files g message (Some earlier) chat) as Hretry.
  { unfold App.retry_last.
    destruct (earlier ++ [(message, answer)]) as [|p ps] eqn:E.
    - by destruct earlier.
    - rewrite <- E, last_snoc, removelast_last. done. }
  split; [done|]. rewrite Hretry. split; [|split; [|done]].
  - intros Hblank. unfold App.respond. by rewrite Hblank.
  - intros Hblank c Hc.
    destruct (respond_nonblank memory files g message
                (Some earlier) chat c Hblank Hc) as [-> [c' Hc']].
    rewrite Hc'. cbn [default]. eauto.
Qed.

End HandlersMore.

Module DeclarationFacts.
Import SelectFileTool ResponseGeneratorTool Declarations Notions.
Import ResponseGeneratorFacts SelectFileToolMore.

Lemma occurs_in_refl (text : string) : occurs_in text text.
Proof. exists EmptyString, EmptyString. by rewrite append_empty_r. Qed.

Lemma occurs_in_trans (a b c : string) :
  occurs_in a b -> occurs_in b c -> occurs_in a c.
Proof.
  intros (p & q & ->) (p' & q' & ->).
  exists (p' +:+ p), (q +:+ q'). rewrite ?append_assoc. reflexivity.
Qed.

(** Every element of a joined list occurs in the result. *)
Lemma join_occurs (sep : string) (l : list string) (x : string) :
  x ∈ l -> occurs_in x (join sep l).
Proof.
  unfold join. induction l as [|a l IH]; intros Hin.
  - by apply elem_of_nil in Hin.
  - apply elem_of_cons in Hin as [->|Hin].
    + destruct l as [|b l]; cbn [String.concat]; [apply occurs_in_refl|].
      exists EmptyString, (sep +:+ String.concat sep (b :: l)). reflexivity.
    + destruct l as [|b l]; [by apply elem_of_nil in Hin|].
      cbn [String.concat]. do 2 apply occurs_in_extend. by apply IH.
Qed.

(** X23: the declaration of [select_relevant_files] offers exactly the
    stored titles, in store order, and each of them can be selected:
    requesting the whole enumeration reports nothing in [not_found].  Its
    description gives the number of stored files and, for each of them,
    the title with its summary ("无摘要" when it has none). *)
Theorem declared_titles_are_selectable `{StrOps} (files : metadata) :
  let decl := create_select_files_function files in
  let r := select_files_by_titles files (decl_enum decl) in
  decl_name decl = "select_relevant_files"
  /\ decl_enum decl = get_all_file_titles files
  /\ not_found r = []
  /\ total_selected r = length files
  /\ occurs_in ("共 " +:+ pretty (length files) +:+ " 个")
       (decl_description decl)
  /\ (forall info, info ∈ files ->
        occurs_in
          ("- **" +:+ title info +:+ "**" +:+ nl +:+ "  内容: "
             +:+ default "无摘要" (content_summary info))
          (decl_description decl)).
Proof.
  cbv zeta. split; [reflexivity|]. split; [reflexivity|].
  cbn [decl_enum create_select_files_function].
  destruct (select_all_titles files) as (Hnf & Htotal & _).
  split; [exact Hnf|]. split; [exact Htotal|].
  cbn [decl_description]. split.
  - eapply occurs_in_trans; [|apply join_occurs, list_elem_of_lookup; by exists 14].
    exists "**可用的文件及其详细内容（", "）**：".
    rewrite ?append_assoc. reflexivity.
  - intros info Hin.
    eapply occurs_in_trans; [|apply join_occurs, list_elem_of_lookup; by exists 16].
    apply join_occurs, list_elem_of_fmap. exists info. split; [|done].
    reflexivity.
Qed.

End DeclarationFacts.

Module TerminalMore.
Import MemoryTool SelectFileTool ResponseGeneratorTool Director Notions.
Import LoopFacts LoopMore.

Section WithServices.
Context `{StrOps} `{Client}.
Variable memory : memory_data.
Variable files : metadata.

(** A batch whose first terminal call is [fc]. *)
Lemma run_batch_at_terminal (before after : list function_call)
    (fc : function_call) (query : string) (v : vars) (frs : list part) :
  Forall nonterminal before ->
  name fc = "generate_detailed_response" ->
  let result :=
    execute_function memory files (gen v) fc query
      (knowledge_after memory before (knowledge_level_result v))
      (selection_after files before (selected_files_result v)) in
  exists v',
    run_batch memory files (before ++ fc :: after) query v frs
    = (v', AtTerminal result.1)
    /\ calls_made v' = calls_made v ++ before ++ [fc].
Proof.
  intros Hbefore Hname. cbv zeta.
  rewrite (run_batch_app memory files before (fc :: after) Hbefore).
  cbn [run_batch]. unfold call.
  cbn [knowledge_level_result selected_files_result gen executed].
  destruct (execute_function memory files (gen v) fc query _ _) as [r g].
  rewrite Hname. eexists. split; [reflexivity|].
  unfold calls_made. cbn [executed fst].
  rewrite !fmap_app, <- list_fmap_compose. cbn.
  rewrite app_assoc. f_equal. f_equal. by rewrite list_fmap_id.
Qed.

End WithServices.

(** X24: when the first response of the decision engine is a batch that
    holds the terminal call, the query ends in the first pass, after one
    request: the calls before the terminal one and the terminal call are
    made, in order, and no call after it.  [process_query_with_chat]
    returns the response that the terminal call generates from the
    results of the calls before it; [process_query] of main.py prints the
    completion banner. *)
Theorem terminal_call_ends_the_query `{StrOps} `{Client}
    (memory : memory_data) (files : metadata) (g : tool_state)
    (query : string) (chat : option chat_session)
    (resp : generate_response) (before after : list function_call)
    (fc : function_call) :
  (first_decision g chat query).2 = Ok resp ->
  extract_function_calls resp = Ok (before ++ fc :: after) ->
  Forall nonterminal before ->
  name fc = "generate_detailed_response" ->
  is_blank query = false ->
  let result :=
    execute_function memory files g fc query
      (knowledge_after memory before None)
      (selection_after files before None) in
  let app := App.process_query_with_chat memory files g query chat in
  let main := Main.process_query memory files g query chat in
  app.1 = response_of result.1
  /\ calls_made (s_vars app.2) = before ++ [fc]
  /\ iteration app.2 = 1 /\ decisions app.2 = 1
  /\ main.1 = Main.Completed
  /\ calls_made (s_vars main.2) = before ++ [fc].
Proof.
  intros Hfirst Hcalls Hbefore Hname Hblank. cbv zeta.
  unfold App.process_query_with_chat, Main.process_query. rewrite Hblank.
  pose proof (first_decision_counts g chat query) as (Hi & Hd & Hv).
  destruct (first_decision g chat query) as [s r]. cbn in Hfirst, Hi, Hd, Hv.
  subst r. change max_iterations with 10. cbn [App.chat_loop Main.loop].
  rewrite Hcalls.
  destruct (run_batch_at_terminal memory files before after fc query
              (s_vars (tick s)) [] Hbefore Hname) as (v' & Hrun & Hmade).
  destruct (before ++ fc :: after) as [|c cs] eqn:E; [by destruct before|].
  rewrite Hrun. cbn [fst snd s_vars with_vars tick iteration decisions] in *.
  rewrite Hv in *. cbn in Hmade.
  rewrite Hi, Hd. done.
Qed.

Lemma terminal_call_ends_the_query_witness :
  let app :=
    @App.process_query_with_chat Stub.ascii_ops Stub.mixed_batch_client
      Stub.sample_memory [Stub.known_pdf]
      (@initial_state Stub.mixed_batch_client) "the sun" None in
  app.1 = "answer"
  /\ calls_made (s_vars app.2)
     = [Stub.knowledge_call ["astronomy"];
        Stub.terminal_call (Some "the sun") None None].
Proof.
  destruct (@terminal_call_ends_the_query
              Stub.ascii_ops Stub.mixed_batch_client
              Stub.sample_memory [Stub.known_pdf]
              (@initial_state Stub.mixed_batch_client) "the sun" None
              (Stub.calls_response Stub.mixed_batch)
              [Stub.knowledge_call ["astronomy"]]
              [Stub.select_call ["known.pdf"]]
              (Stub.terminal_call (Some "the sun") None None)
              eq_refl eq_refl)
    as (Hanswer & Hmade & _).
  - repeat constructor; discriminate.
  - reflexivity.
  - reflexivity.
  - cbv zeta. rewrite Hanswer, Hmade. split; [vm_compute|]; reflexivity.
Defined.

End TerminalMore.

Module UnknownToolFacts.
Import MemoryTool SelectFileTool ResponseGeneratorTool Director Notions.
Import DirectorFacts LoopFacts LoopMore.

Section WithServices.
Context `{StrOps} `{Client}.
Variable memory : memory_data.
Variable files : metadata.

Lemma tool_output_unregistered (fc : function_call) :
  unregistered (name fc) -> tool_output memory files fc = None.
Proof.
  intros (H1 & H2 & _). unfold tool_output.
  by rewrite (eqb_false _ _ H1), (eqb_false _ _ H2).
Qed.

(** The function responses that [process_query_for_gradio] collects over
    a batch without the terminal call; the history is not touched while
    the batch runs. *)
Lemma gradio_batch_responses (calls : list function_call) :
  Forall nonterminal calls ->
  forall (query : string) (st : App.gradio_state) (frs : list part),
  let out := App.gradio_batch memory files calls query st frs in
  out.2 = frs ++ ((fun c => Part_from_function_response (name c)
                              (tool_output memory files c)) <$> calls)
  /\ App.g_history out.1 = App.g_history st.
Proof.
  induction 1 as [|fc calls Hfc _ IH]; intros query st frs; cbv zeta.
  - cbn. by rewrite app_nil_r.
  - cbn [App.gradio_batch]. unfold call.
    rewrite (execute_nonterminal memory files _ _ _ _ _ Hfc).
    destruct (App.record_result fc _ st _) as [[v' final] lines].
    match goal with
    | |- context [App.gradio_batch memory files calls query ?s ?f] =>
        destruct (IH query s f) as [-> ->]
    end.
    cbn. by rewrite <- app_assoc.
Qed.

End WithServices.

(** C4 (amended): a call whose name is none of the three registered
    tools, with a mapping for its arguments, makes the executor return
    [None] (no result value, no error status, no message) without
    raising and without touching the response generator.  In a batch
    that holds no terminal call the loop answers it, at its place among
    the function responses of the batch, with a function response that
    carries its name and the payload [None], and sends these responses
    to the decision engine: through the chat session when there is one,
    else at the end of the history.  [process_query_with_chat],
    [process_query] and [process_query_for_gradio] then go on with what
    the engine answers; the only errors on the way are those of the
    engine itself. *)
Theorem unknown_tool_is_answered_with_none `{StrOps} `{Client}
    (memory : memory_data) (files : metadata) (k : nat) (query : string)
    (s : session) (resp : generate_response)
    (calls : list function_call) (i : nat) (fc : function_call) :
  name fc <> "get_knowledge_level" ->
  name fc <> "select_relevant_files" ->
  name fc <> "generate_detailed_response" ->
  extract_function_calls resp = Ok calls ->
  calls !! i = Some fc ->
  Forall nonterminal calls ->
  let function_responses :=
    (fun c => Part_from_function_response (name c)
                (tool_output memory files c)) <$> calls in
  let v :=
    {| knowledge_level_result :=
         knowledge_after memory calls (knowledge_level_result (s_vars s));
       selected_files_result :=
         selection_after files calls (selected_files_result (s_vars s));
       gen := gen (s_vars s);
       executed :=
         executed (s_vars s)
           ++ ((fun c => (c, tool_output memory files c)) <$> calls) |} in
  let asked chat history :=
    {| s_chat := chat; s_history := history; s_vars := v;
       iteration := S (iteration s); decisions := S (decisions s) |} in
  (forall g knowledge selection,
     execute_function memory files g fc query knowledge selection = (None, g))
  /\ function_responses !! i
     = Some (Part_from_function_response (name fc) None)
  /\ length function_responses = length calls
  /\ executed v !! (length (executed (s_vars s)) + i) = Some (fc, None)
  /\ App.chat_loop memory files (S k) query s resp
     = match s_chat s with
       | Some c =>
           match send_message c (MsgParts function_responses) with
           | (c', Ok resp') =>
               App.chat_loop memory files k query
                 (asked (Some c') (s_history s)) resp'
           | (c', Raise e) =>
               ("❌ 处理过程中出现错误: " +:+ e, asked (Some c') (s_history s))
           end
       | None =>
           let history :=
             (s_history s ++ first_content resp)
               ++ [user_content function_responses] in
           match generate_content history with
           | Ok resp' =>
               App.chat_loop memory files k query (asked None history) resp'
           | Raise e =>
               ("❌ 处理过程中出现错误: " +:+ e, asked None history)
           end
       end
  /\ Main.loop memory files (S k) query s resp
     = match s_chat s with
       | Some c =>
           match send_message c (MsgParts function_responses) with
           | (c', Ok resp') =>
               Main.loop memory files k query
                 (asked (Some c') (s_history s)) resp'
           | (c', Raise e) =>
               (Main.Uncaught e, asked (Some c') (s_history s))
           end
       | None =>
           let history :=
             (s_history s ++ first_content resp)
               ++ [user_content function_responses] in
           match generate_content history with
           | Ok resp' =>
               Main.loop memory files k query (asked None history) resp'
           | Raise e => (Main.Uncaught e, asked None history)
           end
       end
  /\ (forall st : App.gradio_state,
        generate_content (App.g_history st) = Ok resp ->
        exists st',
          App.gradio_loop memory files (S k) query st
          = App.gradio_loop memory files k query st'
          /\ App.g_history st'
             = (App.g_history st ++ first_content resp)
                 ++ [user_content function_responses]
          /\ calls_made (App.g_vars st') = calls_made (App.g_vars st) ++ calls).
Proof.
  intros H1 H2 H3 Hcalls Hi Hnt. cbv zeta.
  assert (unregistered (name fc)) as Hun by done.
  pose proof (tool_output_unregistered memory files fc Hun) as Hout.
  split; [intros; by apply execute_unregistered|].
  split; [by rewrite list_lookup_fmap, Hi; cbn; rewrite Hout|].
  split; [by rewrite length_fmap|].
  split.
  { cbn. rewrite lookup_app_r by lia.
    replace (length (executed (s_vars s)) + i - length (executed (s_vars s)))
      with i by lia.
    by rewrite list_lookup_fmap, Hi; cbn; rewrite Hout. }
  destruct calls as [|c0 cs]; [done|].
  split; [|split].
  - cbn [App.chat_loop]. rewrite Hcalls.
    rewrite (run_batch_nonterminal memory files _ Hnt). rewrite app_nil_l.
    unfold next_decision, with_vars, tick. cbn.
    destruct (s_chat s) as [c|].
    + by destruct (send_message c _) as [c' [r|e]].
    + by destruct (generate_content _) as [r|e].
  - cbn [Main.loop]. rewrite Hcalls.
    rewrite (run_batch_nonterminal memory files _ Hnt). rewrite app_nil_l.
    unfold next_decision, with_vars, tick. cbn.
    destruct (s_chat s) as [c|].
    + by destruct (send_message c _) as [c' [r|e]].
    + by destruct (generate_content _) as [r|e].
  - intros st Hresp. cbn [App.gradio_loop].
    change (App.g_history (App.gradio_tick st)) with (App.g_history st).
    rewrite Hresp, Hcalls.
    pose proof (gradio_batch_responses memory files (c0 :: cs) Hnt query
                  (App.gradio_asked (App.gradio_tick st)
                     (App.g_history st ++ first_content resp)
                     (App.final_response (App.gradio_tick st))) [])
      as Hb.
    pose proof (gradio_batch_makes_every_call memory files (c0 :: cs) query
                  (App.gradio_asked (App.gradio_tick st)
                     (App.g_history st ++ first_content resp)
                     (App.final_response (App.gradio_tick st))) [])
      as Hm.
    cbv zeta in Hb.
    destruct (App.gradio_batch memory files (c0 :: cs) query _ [])
      as [st1 frs1]. cbn [fst snd] in Hb, Hm. destruct Hb as [Hfrs Hh].
    rewrite (RunMore.any_terminal_false _ Hnt).
    eexists. split; [reflexivity|]. cbn. rewrite Hh, Hfrs, app_nil_l.
    split; [reflexivity|]. exact Hm.
Qed.

(** An engine that invents a tool is told so by the payload [None] and
    then answers in words: the run ends with that answer. *)
Lemma unknown_tool_is_answered_with_none_witness :
  let start :=
    @first_decision Stub.hallucinating_client
      (@initial_state Stub.hallucinating_client) None "where is the sun?" in
  (@App.chat_loop Stub.ascii_ops Stub.hallucinating_client
     Stub.sample_memory [Stub.known_pdf] 10 "where is the sun?"
     start.1 (Stub.calls_response Stub.invented_batch)).1
  = "no such tool".
Proof.
  cbv zeta.
  assert (Forall nonterminal Stub.invented_batch) as Hnt.
  { repeat constructor; discriminate. }
  destruct (@unknown_tool_is_answered_with_none
              Stub.ascii_ops Stub.hallucinating_client
              Stub.sample_memory [Stub.known_pdf] 9 "where is the sun?"
              (@first_decision Stub.hallucinating_client
                 (@initial_state Stub.hallucinating_client) None
                 "where is the sun?").1
              (Stub.calls_response Stub.invented_batch)
              Stub.invented_batch 0 Stub.unknown_call
              ltac:(discriminate) ltac:(discriminate) ltac:(discriminate)
              eq_refl eq_refl Hnt)
    as (_ & _ & _ & _ & Hloop & _).
  rewrite Hloop. vm_compute. reflexivity.
Defined.

End UnknownToolFacts.

Module LogMore.
Import MemoryTool SelectFileTool ResponseGeneratorTool Director Notions.
Import DirectorFacts LoopFacts LoopMore.

Lemma logged_steps_app (a b : list App.log_entry) :
  logged_steps (a ++ b) = logged_steps a ++ logged_steps b.
Proof. apply omap_app. Qed.

(** Numbering one element more. *)
Lemma zip_seq_snoc {A : Type} (l : list A) (x : A) :
  zip (seq 1 (length (l ++ [x]))) (l ++ [x])
  = zip (seq 1 (length l)) l ++ [(S (length l), x)].
Proof.
  rewrite length_app. cbn [length].
  rewrite seq_app. cbn [seq Nat.add].
  rewrite zip_with_app by (by rewrite length_seq).
  reflexivity.
Qed.

Section WithServices.
Context `{StrOps} `{Client}.
Variable memory : memory_data.
Variable files : metadata.

(** What is logged after a call: result lines, never a step heading; the
    record of the calls made is not touched. *)
Lemma record_result_lines (fc : function_call) (result : option tool_result)
    (st : App.gradio_state) (v : vars) :
  logged_steps (App.record_result fc result st v).2 = []
  /\ executed (App.record_result fc result st v).1.1 = executed v.
Proof.
  unfold App.record_result.
  destruct (String.eqb (name fc) "get_knowledge_level").
  { split; [|done]. cbn.
    destruct result as [[r| |]|]; cbn; try done.
    induction (MemoryTool.subjects_info r) as [|item l IH]; [done|exact IH]. }
  destruct (String.eqb (name fc) "select_relevant_files").
  { split; [|done]. cbn.
    destruct result as [[|r|]|]; cbn; try done.
    induction (selected_files r) as [|d l IH]; [done|exact IH]. }
  destruct (String.eqb (name fc) "generate_detailed_response"); [|done].
  split; [|done]. by destruct result as [[| |p]|].
Qed.

Lemma gradio_batch_numbers (calls : list function_call) (query : string) :
  forall (st : App.gradio_state) (frs : list part),
  steps_in_order st ->
  steps_in_order (App.gradio_batch memory files calls query st frs).1.
Proof.
  induction calls as [|fc calls IH]; intros st frs Hst; [done|].
  cbn [App.gradio_batch].
  pose proof (call_made memory files (App.g_vars st) fc query) as Hmade.
  destruct (call memory files (App.g_vars st) fc query) as [result v].
  cbn [snd] in Hmade.
  pose proof (record_result_lines fc result st v) as [Hlines Hexec].
  destruct (App.record_result fc result st v) as [[v' final] lines].
  cbn [fst snd] in Hlines, Hexec.
  apply IH. destruct Hst as [Hlog Hstep]. unfold steps_in_order. cbn.
  assert (calls_made v' = calls_made (App.g_vars st) ++ [fc]) as ->.
  { unfold calls_made in *. by rewrite Hexec. }
  split.
  - rewrite !logged_steps_app, Hlines, app_nil_r, Hlog. cbn.
    rewrite fmap_app. cbn [fmap list_fmap].
    rewrite <- (length_fmap name (calls_made (App.g_vars st) ++ [fc])).
    rewrite fmap_app. cbn [fmap list_fmap].
    rewrite zip_seq_snoc, length_fmap, Hstep. reflexivity.
  - rewrite length_app. cbn. lia.
Qed.

Lemma gradio_loop_numbers (k : nat) (query : string) :
  forall st : App.gradio_state,
  steps_in_order st ->
  let out := App.gradio_loop memory files k query st in
  steps_in_order out.2
  /\ (forall log, out.1.1 = App.PathLog log ->
      log = App.function_call_log out.2).
Proof.
  induction k as [|k IH]; intros st Hst; cbv zeta.
  { split; [done|]. cbn. by intros log [= <-]. }
  cbn [App.gradio_loop].
  destruct (generate_content _) as [r|e]; [|by split].
  destruct (extract_function_calls r) as [[|fc calls]|e]; [| |by split].
  - destruct (response_text r) as [t|]; [destruct (truthy t)|];
      (split; [done|]); cbn; by intros log [= <-].
  - pose proof (gradio_batch_numbers (fc :: calls) query
                  (App.gradio_asked (App.gradio_tick st)
                     (App.g_history (App.gradio_tick st) ++ first_content r)
                     (App.final_response (App.gradio_tick st))) [] Hst) as Hb.
    destruct (App.gradio_batch memory files (fc :: calls) query _ [])
      as [st1 frs1]. cbn [fst] in Hb.
    destruct (App.any_terminal (fc :: calls)).
    + split; [done|]. cbn. by intros log [= <-].
    + apply (IH (App.gradio_asked st1 _ _)). exact Hb.
Qed.

End WithServices.

(** X19: on every run of [process_query_for_gradio] the step headings of
    the log are, in order, the tool calls executed, each under its name
    and numbered 1, 2, 3, ... without a gap or a repeat; the step counter
    ends one above their number; and the log the function returns is
    that log. *)
Theorem gradio_steps_count_the_calls `{StrOps} `{Client}
    (memory : memory_data) (files : metadata) (g : tool_state)
    (query : string) :
  let out := App.process_query_for_gradio memory files g query in
  let calls := calls_made (App.g_vars out.2) in
  logged_steps (App.function_call_log out.2)
  = zip (seq 1 (length calls)) (name <$> calls)
  /\ App.step_number out.2 = S (length calls)
  /\ (forall log, out.1.1 = App.PathLog log ->
      log = App.function_call_log out.2
      /\ logged_steps log = zip (seq 1 (length calls)) (name <$> calls)).
Proof.
  cbv zeta. unfold App.process_query_for_gradio.
  destruct (is_blank query); [by repeat split|].
  assert (steps_in_order (App.gradio_initial g query)) as Hinit by done.
  destruct (gradio_loop_numbers memory files max_iterations query
              (App.gradio_initial g query) Hinit) as [[Hlog Hstep] Hret].
  split; [exact Hlog|]. split; [exact Hstep|].
  intros log Hpath. rewrite (Hret log Hpath). by split.
Qed.

End LogMore.
